(** * Session-token lifecycle and role ledger of the FastAPI back end

    A shallow embedding of
    - [back-end/app.py]: [create_jwt_token], [verify_jwt_token],
      [attach_token_to_response], [get_token_data_for_refresh],
      [refresh_token];
    - [back-end/src/middleware.py]: [TokenRenewalMiddleware.dispatch];
    - [back-end/routers/srv/auth.py]: [ensure_user_has_role], [read_roles];
    - [back-end/routers/auth.py]: [get_user_roles];
    - [back-end/db/models.py]: the four tables.
    - further on: the remaining endpoints of [app.py] ([login], the protected
      pages), the account functions of [routers/srv/auth.py], the production
      login of [routers/auth.py], and the seed of [setup_database.py].

    Conventions.
    - Time is POSIX time in whole seconds (the unit of the JWT NumericDate
      claims [iat] and [exp]); every operation reads the clock once and
      receives that reading as its argument [now].
    - A Python dict with string keys is a [gmap string value].
    - A raised exception is the left injection of a sum, a returned value the
      right one. *)

From Stdlib Require Import ZArith List Bool.
From stdpp Require Import base option gmap strings list fin_maps.

Local Open Scope string_scope.
Local Open Scope Z_scope.

#[local] Set Warnings "-register-all".

(** ** JSON values carried by a token payload *)

Inductive value : Type :=
| VNull
| VBool (b : bool)
| VNum (n : Z)
| VStr (s : string)
| VList (l : list value).

Definition value_eq_dec : ∀ a b : value, {a = b} + {a ≠ b}.
Proof.
  fix IH 1.
  intros [ | b1 | n1 | s1 | l1] [ | b2 | n2 | s2 | l2];
    try (right; discriminate); try (left; reflexivity).
  - destruct (Bool.bool_dec b1 b2) as [->|Hne]; [left; reflexivity|right; congruence].
  - destruct (Z.eq_dec n1 n2) as [->|Hne]; [left; reflexivity|right; congruence].
  - destruct (String.string_dec s1 s2) as [->|Hne]; [left; reflexivity|right; congruence].
  - destruct (List.list_eq_dec IH l1 l2) as [->|Hne]; [left; reflexivity|right; congruence].
Defined.

#[global] Instance value_eq_decision : EqDecision value := value_eq_dec.

(** Python truthiness of [d.get(k)]: a missing key gives [None]. *)
Definition truthy (v : option value) : bool :=
  match v with
  | None => false
  | Some VNull => false
  | Some (VBool b) => b
  | Some (VNum n) => negb (n =? 0)
  | Some (VStr s) => negb (String.eqb s "")
  | Some (VList l) => match l with [] => false | _ => true end
  end.

(** The numeric reading of a value in arithmetic and comparisons
    ([bool] is a subclass of [int]); anything else raises [TypeError]. *)
Definition as_number (v : value) : option Z :=
  match v with
  | VNum n => Some n
  | VBool b => Some (if b then 1 else 0)
  | _ => None
  end.

(** ** Exceptions and the error monad *)

Inductive exn : Type :=
| HTTPException (status_code : Z) (detail : string)
| JWTError
| JWTClaimsError
| ExpiredSignatureError
| KeyError (key : string)
| TypeError
| ValidationError
| MultipleResultsFound
| IntegrityError.

(** [ExpiredSignatureError] and [JWTClaimsError] are subclasses of
    [JWTError]. *)
Definition is_JWTError (e : exn) : bool :=
  match e with
  | JWTError | JWTClaimsError | ExpiredSignatureError => true
  | _ => false
  end.

Definition result (A : Type) : Type := exn + A.

Definition raise {A : Type} (e : exn) : result A := inl e.
Definition ret {A : Type} (a : A) : result A := inr a.
Definition bind {A B : Type} (m : result A) (k : A → result B) : result B :=
  match m with
  | inl e => inl e
  | inr a => k a
  end.

Notation "'do' x <- m ; k" := (bind m (fun x => k))
  (at level 10, x name, m at level 100, k at level 200, only parsing).
Notation "'exec' m ; k" := (bind m (fun _ : unit => k))
  (at level 10, m at level 100, k at level 200, only parsing).

(** [try: body except E: handler]: the handler sees every exception of the
    body and re-raises those its clauses do not match. *)
Definition try_except {A : Type} (body : result A) (handler : exn → result A)
  : result A :=
  match body with
  | inl e => handler e
  | inr a => inr a
  end.

(** ** The JWT codec (python-jose), HS256

    The codec is a library the back end calls; it is modelled symbolically.
    A compact token is either a string that does not parse as a JWS, or a
    claims set together with a signature; a signature is an HMAC of some
    claims set under some key, and it verifies for a key and a claims set
    exactly when it was computed from them. *)

Abbreviation payload := (gmap string value).

Inductive signature : Type :=
| Hmac (key : string) (msg : payload).

Inductive token : Type :=
| Garbage (s : string)
| Jws (claims : payload) (sig : signature).

Definition sig_verifies (key : string) (claims : payload) (sig : signature) : bool :=
  match sig with
  | Hmac k m => bool_decide (k = key) && bool_decide (m = claims)
  end.

Definition signature_valid (key : string) (tok : token) : bool :=
  match tok with
  | Garbage _ => false
  | Jws claims sig => sig_verifies key claims sig
  end.

(** [jwt.encode(claims, key, algorithm)]. A [datetime] under [exp] or [iat]
    is written as its integer timestamp; the callers below pass the
    timestamp. *)
Definition jwt_encode (claims : payload) (key : string) : token :=
  Jws claims (Hmac key claims).

(** Claim validation of [jwt.decode], in the order the library applies it:
    [iat], [nbf], [exp], [aud], [sub], [jti], [at_hash]. No audience, issuer,
    subject or access token is ever passed by the callers.

    The date claims are modelled on numbers, where the library's reading
    [int(v)] is the value itself. For a date claim that is not a number the
    library goes on with [int(v)] (a decimal string is read as a date, [None]
    raises [TypeError]); here every such claim is a claims error, so the
    properties below that depend on a date claim are stated for numeric
    ones. *)
Definition validate_iat (claims : payload) : result unit :=
  match claims !! "iat" with
  | None => ret ()
  | Some v => match as_number v with
              | Some _ => ret ()
              | None => raise JWTClaimsError
              end
  end.

Definition validate_nbf (now : Z) (claims : payload) : result unit :=
  match claims !! "nbf" with
  | None => ret ()
  | Some v => match as_number v with
              | Some nbf => if now <? nbf then raise JWTClaimsError else ret ()
              | None => raise JWTClaimsError
              end
  end.

Definition validate_exp (now : Z) (claims : payload) : result unit :=
  match claims !! "exp" with
  | None => ret ()
  | Some v => match as_number v with
              | Some exp => if exp <? now then raise ExpiredSignatureError else ret ()
              | None => raise JWTClaimsError
              end
  end.

Definition validate_aud (claims : payload) : result unit :=
  match claims !! "aud" with
  | None => ret ()
  | Some _ => raise JWTClaimsError
  end.

Definition validate_str (name : string) (claims : payload) : result unit :=
  match claims !! name with
  | None => ret ()
  | Some (VStr _) => ret ()
  | Some _ => raise JWTClaimsError
  end.

Definition validate_at_hash (claims : payload) : result unit :=
  match claims !! "at_hash" with
  | None => ret ()
  | Some _ => raise JWTClaimsError
  end.

Definition validate_claims (verify_exp : bool) (now : Z) (claims : payload) : result unit :=
  exec validate_iat claims;
  exec validate_nbf now claims;
  exec (if verify_exp then validate_exp now claims else ret ());
  exec validate_aud claims;
  exec validate_str "sub" claims;
  exec validate_str "jti" claims;
  validate_at_hash claims.

(** [jwt.decode(token, key, algorithms=[ALGORITHM], options={"verify_exp": b})]:
    the signature is checked first and unconditionally. *)
Definition jwt_decode (verify_exp : bool) (now : Z) (tok : token) (key : string)
  : result payload :=
  match tok with
  | Garbage _ => raise JWTError
  | Jws claims sig =>
      if sig_verifies key claims sig
      then exec validate_claims verify_exp now claims; ret claims
      else raise JWTError
  end.

(** ** Strings: [s.lower()] and [needle in s] *)

Definition ascii_lower (c : Ascii.ascii) : Ascii.ascii :=
  let n := Ascii.nat_of_ascii c in
  if (Nat.leb 65 n && Nat.leb n 90)%bool then Ascii.ascii_of_nat (n + 32) else c.

Fixpoint lower (s : string) : string :=
  match s with
  | EmptyString => EmptyString
  | String c s' => String (ascii_lower c) (lower s')
  end.

Fixpoint contains (needle s : string) : bool :=
  String.prefix needle s ||
  match s with
  | EmptyString => false
  | String _ s' => contains needle s'
  end.

(** ** Cookies, requests and responses *)

Record Cookie : Type := {
  cookie_key : string;
  cookie_value : token;
  cookie_httponly : bool;
  cookie_secure : bool;
  cookie_samesite : string;
  cookie_max_age : Z;
  cookie_path : string
}.

(** The [Response] parameter of an endpoint: the list of [Set-Cookie]
    headers written so far, latest first. *)
Record Response : Type := { set_cookies : list Cookie }.

Definition set_cookie (response : Response) (c : Cookie) : Response :=
  {| set_cookies := c :: set_cookies response |}.

(** [request.cookies] *)
Record Request : Type := { cookies : gmap string token }.

(** [not token] for [token = request.cookies.get(name)] *)
Definition no_token (t : option token) : bool :=
  match t with
  | None => true
  | Some (Garbage s) => String.eqb s ""
  | Some (Jws _ _) => false
  end.

(** [payload[k]] *)
Definition getitem (p : payload) (k : string) : result value :=
  match p !! k with
  | Some v => ret v
  | None => raise (KeyError k)
  end.

(** [datetime.fromtimestamp(v, tz=timezone.utc)], as a timestamp again. A
    [datetime] holds the years 1 to 9999; the conversion of a timestamp
    outside [MIN_TIMESTAMP .. MAX_TIMESTAMP] raises, which is not modelled:
    the properties that convert a timestamp the token chooses assume it in
    this range. *)
Definition fromtimestamp (v : value) : result Z :=
  match as_number v with
  | Some n => ret n
  | None => raise TypeError
  end.

(** 0001-01-01T00:00:00Z and 9999-12-31T23:59:59Z. *)
Definition MIN_TIMESTAMP : Z := -62135596800.
Definition MAX_TIMESTAMP : Z := 253402300799.

Definition datetime_range (ts : Z) : Prop :=
  MIN_TIMESTAMP ≤ ts ≤ MAX_TIMESTAMP.

(** ** [back-end/app.py] *)

Module App.

Definition ACCESS_TOKEN_EXPIRE_HOURS : Z := 24.
Definition REFRESH_INTERVAL_HOURS : Z := 1.
Definition MAX_TOKEN_LIFETIME_DAYS : Z := 7.
Definition COOKIE_NAME : string := "access_token".

(** [timedelta(hours=h)] and [timedelta(days=d)], in seconds. *)
Definition hours (h : Z) : Z := h * 3600.
Definition days (d : Z) : Z := d * 86400.

Record UserPayload : Type := {
  userId : Z;
  username : string;
  fullname : string;
  title : string;
  email : string;
  roles : list Z
}.

#[global] Instance UserPayload_eq_dec : EqDecision UserPayload.
Proof. solve_decision. Defined.

Definition admin_user : UserPayload :=
  {| userId := 101; username := "admin_user"; fullname := "Admin Von Admin";
     title := "System Administrator"; email := "admin@example.com";
     roles := [1; 2] |}.

Definition regular_user : UserPayload :=
  {| userId := 202; username := "regular_user"; fullname := "Reginald User";
     title := "Standard User"; email := "user@example.com"; roles := [2] |}.

Definition users_db : gmap string UserPayload :=
  <["admin_user" := admin_user]> (<["regular_user" := regular_user]> ∅).

(** [user.model_dump()] *)
Definition model_dump (user : UserPayload) : payload :=
  <["userId" := VNum (userId user)]>
  (<["username" := VStr (username user)]>
  (<["fullname" := VStr (fullname user)]>
  (<["title" := VStr (title user)]>
  (<["email" := VStr (email user)]>
  (<["roles" := VList (VNum <$> roles user)]> ∅))))).

(** The constructor call [UserPayload] applied to the unpacked payload
    dict: every field is required and must have its
    declared type; keys that are not fields are ignored. This is the
    validation of payloads whose fields already have their declared types,
    as the tokens of [create_jwt_token] do; the conversions of the validation
    library (a decimal string taken for an [int]) and the address check of
    [EmailStr] are not modelled, so nothing below reads the identity of an
    arbitrary accepted token through this function. *)
Definition field_int (p : payload) (k : string) : result Z :=
  match p !! k with
  | Some (VNum n) => ret n
  | _ => raise ValidationError
  end.

Definition field_str (p : payload) (k : string) : result string :=
  match p !! k with
  | Some (VStr s) => ret s
  | _ => raise ValidationError
  end.

Fixpoint int_list (l : list value) : result (list Z) :=
  match l with
  | [] => ret []
  | VNum n :: l' => do ns <- int_list l'; ret (n :: ns)
  | _ :: _ => raise ValidationError
  end.

Definition field_int_list (p : payload) (k : string) : result (list Z) :=
  match p !! k with
  | Some (VList l) => int_list l
  | _ => raise ValidationError
  end.

Definition UserPayload_of (p : payload) : result UserPayload :=
  do i <- field_int p "userId";
  do u <- field_str p "username";
  do f <- field_str p "fullname";
  do t <- field_str p "title";
  do e <- field_str p "email";
  do r <- field_int_list p "roles";
  ret {| userId := i; username := u; fullname := f; title := t;
         email := e; roles := r |}.

(** [x is None] for [x = payload.get(k)] *)
Definition is_None (v : option value) : bool :=
  match v with
  | None | Some VNull => true
  | _ => false
  end.

(** [now_ts > v] for [v = payload.get(k)]; comparing a number with [None],
    a string or a list raises [TypeError]. *)
Definition now_gt (now : Z) (v : option value) : result bool :=
  match v ≫= as_number with
  | Some n => ret (n <? now)
  | None => raise TypeError
  end.

Section WithConfig.

(** [os.getenv("SECRET_KEY", ...)] and the [SECURE_COOKIE] flag, read once at
    start-up. *)
Variable SECRET_KEY : string.
Variable SECURE_COOKIE : bool.

Definition create_jwt_token (now : Z) (user : UserPayload)
    (existing_max_exp : option value) : token :=
  let access_expire := now + hours ACCESS_TOKEN_EXPIRE_HOURS in
  let max_expire_ts :=
    match existing_max_exp with
    | Some ts => ts
    | None =>
        let max_expire := now + days MAX_TOKEN_LIFETIME_DAYS in
        let effective_max_expire := Z.max access_expire max_expire in
        VNum effective_max_expire
    end in
  let to_encode : payload :=
    model_dump user ∪
    (<["sub" := VStr (username user)]>
    (<["iat" := VNum now]>
    (<["exp" := VNum access_expire]>
    (<["max_exp" := max_expire_ts]> ∅)))) in
  jwt_encode to_encode SECRET_KEY.

Definition credentials_exception : exn :=
  HTTPException 401 "Could not validate credentials".
Definition token_expired_exception : exn :=
  HTTPException 401 "Token has expired".
Definition max_lifetime_exception : exn :=
  HTTPException 401 "Maximum token lifetime exceeded. Please log in again.".

Definition verify_jwt_token (now : Z) (tok : token) : result UserPayload :=
  try_except
    (do payload <- jwt_decode true now tok SECRET_KEY;
     let username := payload !! "sub" in
     let max_exp_ts := payload !! "max_exp" in
     if is_None username || is_None max_exp_ts
     then raise credentials_exception
     else
       do exceeded <- now_gt now max_exp_ts;
       if exceeded : bool then raise max_lifetime_exception
       else UserPayload_of payload)
    (fun e =>
       match e with
       | ExpiredSignatureError => raise token_expired_exception
       | _ => raise credentials_exception
       end).

(** [attach_token_to_response]: only a [JWTError] of the decoding is
    swallowed, and then no cookie is written. [Max-Age] is the whole seconds
    from the clock reading to [exp]; the function reads the clock itself,
    after the token was made, and the fraction of a second that has passed
    takes one off the difference: for the cookie of a token just made, the
    theorems on the endpoints state the bounds [0] and the token's
    lifetime. *)
Definition attach_token_to_response (now : Z) (response : Response) (tok : token)
  : result Response :=
  try_except
    (do payload <- jwt_decode false now tok SECRET_KEY;
     let exp_timestamp := payload !! "exp" in
     do max_age <-
       (if truthy exp_timestamp
        then match exp_timestamp ≫= as_number with
             | Some exp => ret (Z.max 0 (exp - now))
             | None => raise TypeError
             end
        else ret (hours ACCESS_TOKEN_EXPIRE_HOURS));
     ret (set_cookie response
            {| cookie_key := COOKIE_NAME; cookie_value := tok;
               cookie_httponly := true; cookie_secure := SECURE_COOKIE;
               cookie_samesite := "lax"; cookie_max_age := max_age;
               cookie_path := "/" |}))
    (fun e => if is_JWTError e then ret response else raise e).

Definition get_token_data_for_refresh (now : Z) (request : Request)
  : result (token * payload) :=
  let token := cookies request !! COOKIE_NAME in
  if no_token token
  then raise (HTTPException 401 "Missing token cookie for refresh")
  else
    match token with
    | None => raise (HTTPException 401 "Missing token cookie for refresh")
    | Some tok =>
        try_except
          (do payload <- jwt_decode false now tok SECRET_KEY;
           if negb (truthy (payload !! "sub"))
              || negb (truthy (payload !! "iat"))
              || negb (truthy (payload !! "max_exp"))
           then raise (HTTPException 401 "Invalid token structure for refresh")
           else ret (tok, payload))
          (fun e => if is_JWTError e
                    then raise (HTTPException 401 "Invalid token format")
                    else raise e)
    end.

(** [users_db.get(username)] for a claim value: a list is unhashable, a
    key of another type is simply absent. *)
Definition users_db_get (username : value) : result (option UserPayload) :=
  match username with
  | VStr s => ret (users_db !! s)
  | VList _ => raise TypeError
  | _ => ret None
  end.

(** The JSON body of a successful [/refresh] answer. *)
Record RefreshBody : Type := {
  message : string;
  refresh_success : bool;
  next_refresh_allowed_at : option Z
}.

(** The [/refresh] endpoint with its dependency. An exception discards the
    endpoint's [Response]; a returned pair is the body and the response with
    the cookies written on it. *)
Definition refresh_token (now : Z) (request : Request) (response : Response)
  : result (RefreshBody * Response) :=
  do token_data <- get_token_data_for_refresh now request;
  let '(token, payload) := token_data in
  do username <- getitem payload "sub";
  do max_exp_ts <- getitem payload "max_exp";
  do issued_at_ts <- getitem payload "iat";
  let now_ts := now in
  (* 1. maximum lifetime *)
  do exceeded <- now_gt now_ts (Some max_exp_ts);
  if exceeded : bool
  then raise (HTTPException 401
                "Maximum session lifetime exceeded. Please log in again.")
  else
  (* 2. refresh interval *)
  do refresh_allowed_at_ts <-
    match as_number issued_at_ts with
    | Some iat => ret (iat + hours REFRESH_INTERVAL_HOURS)
    | None => raise TypeError
    end;
  if now_ts <? refresh_allowed_at_ts
  then ret ({| message := "Refresh interval not met, try again later.";
               refresh_success := false;
               next_refresh_allowed_at := Some refresh_allowed_at_ts |},
            response)
  else
  (* 3. full verification of the original token, tolerating expiry *)
  exec
    match verify_jwt_token now token with
    | inr _ => ret ()
    | inl (HTTPException status_code detail) =>
        if (status_code =? 401) && contains "expired" (lower detail)
        then ret ()
        else raise (HTTPException status_code detail)
    | inl e => raise e
    end;
  (* 4. new token *)
  do user <- users_db_get username;
  match user with
  | None => raise (HTTPException 500 "Internal inconsistency")
  | Some user =>
      let new_token := create_jwt_token now user (Some max_exp_ts) in
      do response' <- attach_token_to_response now response new_token;
      ret ({| message := "Token refreshed successfully";
              refresh_success := true;
              next_refresh_allowed_at := None |},
           response')
  end.

(** One successful refresh as the browser sees it: it sends the cookie [tok],
    the answer has [refresh_success = true], and the latest cookie written on
    the response carries [tok']. *)
Definition refresh_step_at (now : Z) (tok tok' : token) : Prop :=
  ∃ (request : Request) (response : Response) (body : RefreshBody)
    (response' : Response),
    cookies request !! COOKIE_NAME = Some tok ∧
    refresh_token now request response = inr (body, response') ∧
    refresh_success body = true ∧
    cookie_value <$> head (set_cookies response') = Some tok'.

Definition refresh_step (tok tok' : token) : Prop :=
  ∃ now : Z, refresh_step_at now tok tok'.

(** [cookie_scheme = APIKeyCookie(name=COOKIE_NAME, auto_error=False)]: the
    cookie value, or [None]. *)
Definition cookie_scheme (request : Request) : option token :=
  cookies request !! COOKIE_NAME.

Definition get_current_user (now : Z) (request : Request) : result UserPayload :=
  let token := cookie_scheme request in
  if no_token token
  then raise (HTTPException 401 "Not authenticated")
  else
    match token with
    | None => raise (HTTPException 401 "Not authenticated")
    | Some tok => verify_jwt_token now tok
    end.

Definition get_current_admin_user (now : Z) (request : Request)
  : result UserPayload :=
  do current_user <- get_current_user now request;
  if bool_decide (1 ∈ roles current_user)
  then ret current_user
  else raise (HTTPException 403 "Admin role required").

(** The [/login] endpoint; [username] is [login_data.username]. The returned
    string is the ["message"] of the JSON body. *)
Definition login (now : Z) (username : string) (response : Response)
  : result (string * Response) :=
  match users_db !! username with
  | None => raise (HTTPException 401 "Incorrect username")
  | Some user =>
      let token := create_jwt_token now user None in
      do response' <- attach_token_to_response now response token;
      ret ("Login successful", response')
  end.

(** [/protected/page1] and [/protected/page2] return what their dependency
    gives. *)
Definition read_protected_page1 (now : Z) (request : Request)
  : result UserPayload := get_current_user now request.

Definition read_protected_page2 (now : Z) (request : Request)
  : result UserPayload := get_current_admin_user now request.

End WithConfig.

End App.

(** The claims set a compact token carries (readable without any key). *)
Definition token_claims (tok : token) : payload :=
  match tok with
  | Jws claims _ => claims
  | Garbage _ => ∅
  end.

(** ** [back-end/src/middleware.py] *)

Module Middleware.

Definition TOKEN_RENEW_THRESHOLD_MINUTES : Z := 15.
Definition ACCESS_TOKEN_EXPIRE_MINUTES : Z := 20.

(** [timedelta(minutes=m)], in seconds. *)
Definition minutes (m : Z) : Z := m * 60.

(** What [dispatch] returns:
    - [CallNext None]: [return await call_next(request)], the handler's
      response as it is;
    - [CallNext (Some c)]: the handler's response with cookie [c] set on it;
    - [JSONResponse code detail]: a response built by the middleware; the
      handler is not awaited. *)
Inductive dispatch_result : Type :=
| CallNext (renewed : option Cookie)
| JSONResponse (status_code : Z) (detail : string).

Section WithConfig.

Variable SECRET_KEY : string.

Definition dispatch (now : Z) (request : Request) : result dispatch_result :=
  let token := cookies request !! "access_token" in
  if no_token token
  then ret (CallNext None)
  else
    match token with
    | None => ret (CallNext None)
    | Some tok =>
        try_except
          (do payload <- jwt_decode true now tok SECRET_KEY;
           do exp_claim <- getitem payload "exp";
           do exp <- fromtimestamp exp_claim;
           (* time_remaining = (exp - now).total_seconds() / 60 *)
           if exp - now <=? minutes TOKEN_RENEW_THRESHOLD_MINUTES
           then
             let new_exp := now + minutes ACCESS_TOKEN_EXPIRE_MINUTES in
             let payload' := <["exp" := VNum new_exp]> payload in
             let new_token := jwt_encode payload' SECRET_KEY in
             ret (CallNext (Some
                    {| cookie_key := "access_token"; cookie_value := new_token;
                       cookie_httponly := true; cookie_secure := true;
                       cookie_samesite := "Lax";
                       cookie_max_age := ACCESS_TOKEN_EXPIRE_MINUTES * 60;
                       cookie_path := "/" |}))
           else ret (CallNext None))
          (fun e =>
             match e with
             | ExpiredSignatureError =>
                 ret (JSONResponse 401 "Token expired. Please log in again.")
             | JWTError | JWTClaimsError => ret (CallNext None)
             | _ => raise e
             end)
    end.

End WithConfig.

End Middleware.

(** ** [back-end/db/models.py] *)

Module Role.
Record t : Type := {
  id : option Z;
  name : string;
  description : option string
}.
End Role.

Module Account.
Record t : Type := {
  id : option Z;
  username : string;
  full_name : option string;
  password : option string;
  title : option string;
  is_domain_user : option bool;
  is_super_admin : option bool
}.
End Account.

Module RolePermission.
Record t : Type := {
  id : option Z;
  role_id : Z;
  account_id : Z
}.
End RolePermission.

Module LogRolePermission.
Record t : Type := {
  id : option Z;
  account_id : Z;
  role_id : Z;
  admin_id : Z;
  action : string;
  timestamp : Z
}.
End LogRolePermission.

(** ** [back-end/routers/srv/auth.py] and [back-end/routers/auth.py] *)

Module Ledger.

(** The database behind an [AsyncSession]: one list of rows per table, in
    insertion order. *)
Record Database : Type := {
  role : list Role.t;
  account : list Account.t;
  role_permission : list RolePermission.t;
  log_role_permission : list LogRolePermission.t
}.

(** [result.scalar_one_or_none()] *)
Definition scalar_one_or_none {A : Type} (rows : list A) : result (option A) :=
  match rows with
  | [] => ret None
  | [row] => ret (Some row)
  | _ :: _ :: _ => raise MultipleResultsFound
  end.

(** [select(RolePermission).where(account_id == a, role_id == r)] *)
Definition select_role_permission (db : Database) (account_id role_id : Z)
  : list RolePermission.t :=
  List.filter (fun rp => (RolePermission.account_id rp =? account_id)
                         && (RolePermission.role_id rp =? role_id))
              (role_permission db).

(** The next value of the auto-increment primary key of a table. *)
Definition next_id (ids : list (option Z)) : Z :=
  1 + List.fold_right (fun i acc => Z.max (default 0 i) acc) 0 ids.

(** The two foreign keys of [role_permission]. *)
Definition foreign_keys_ok (db : Database) (rp : RolePermission.t) : bool :=
  existsb (fun r => bool_decide (Role.id r = Some (RolePermission.role_id rp)))
          (role db)
  && existsb (fun a => bool_decide (Account.id a = Some (RolePermission.account_id rp)))
             (account db).

(** [session.add(role_permission); await session.commit()] *)
Definition add_role_permission (db : Database) (rp : RolePermission.t)
  : result Database :=
  if foreign_keys_ok db rp
  then
    let row := {| RolePermission.id :=
                    Some (next_id (RolePermission.id <$> role_permission db));
                  RolePermission.role_id := RolePermission.role_id rp;
                  RolePermission.account_id := RolePermission.account_id rp |} in
    ret {| role := role db; account := account db;
           role_permission := role_permission db ++ [row];
           log_role_permission := log_role_permission db |}
  else raise IntegrityError.

(** [ensure_user_has_role]: the returned message or the raised exception,
    and the database afterwards. *)
Definition ensure_user_has_role (db : Database) (account_id role_id : Z)
    (username : string) : result string * Database :=
  match scalar_one_or_none (select_role_permission db account_id role_id) with
  | inl e => (raise e, db)
  | inr (Some existing_role) =>
      (ret ("Role already assigned to user '" +:+ username +:+ "'."), db)
  | inr None =>
      let role_permission :=
        {| RolePermission.id := None; RolePermission.role_id := role_id;
           RolePermission.account_id := account_id |} in
      match add_role_permission db role_permission with
      | inl e => (raise e, db)
      | inr db' =>
          (ret ("Role successfully assigned to user '" +:+ username +:+ "'."), db')
      end
  end.

(** [select(Role.name).join(RolePermission, Role.id == RolePermission.role_id)
    .where(RolePermission.account_id == account_id)]: one name per matching
    pair of rows. The statement has no [ORDER BY]: the rows are listed here
    by role and then by assignment, and the database may give them in any
    order. *)
Definition select_role_names_of (db : Database) (account_id : Z) : list string :=
  r ← role db;
  rp ← role_permission db;
  if bool_decide (Role.id r = Some (RolePermission.role_id rp))
     && (RolePermission.account_id rp =? account_id)
  then [Role.name r] else [].

(** [select(Role.name)] *)
Definition select_role_names (db : Database) : list string :=
  Role.name <$> role db.

(** [read_roles]; the test [if account_id:] on an [Optional[int]] fails for
    [None] and for [0]. *)
Definition read_roles (db : Database) (account_id : option Z) : list string :=
  match account_id with
  | Some a => if a =? 0 then select_role_names db else select_role_names_of db a
  | None => select_role_names db
  end.

(** [if user.is_super_admin:] for an [Optional[bool]] *)
Definition bool_truthy (b : option bool) : bool := default false b.

Definition get_user_roles (db : Database) (user : Account.t) : list string :=
  if bool_truthy (Account.is_super_admin user)
  then read_roles db None
  else read_roles db (Account.id user).

End Ledger.

(** ** [back-end/src/schemas.py] and [back-end/services/http_schema.py] *)

Module DomainUser.
Record t : Type := {
  id : Z;
  username : string;
  fullName : option string;
  title : option string
}.
End DomainUser.

Module LoginRequest.
Record t : Type := {
  username : string;
  password : string
}.
End LoginRequest.

Module LoginResponse.
Record t : Type := {
  userId : option Z;
  username : option string;
  fullName : option string;
  title : option string;
  email : option string;
  roles : option (list string)
}.
End LoginResponse.

(** ** Accounts and the production login: [routers/srv/auth.py],
    [routers/auth.py], [services/active_directory.py] *)

Module Accounts.
Import Ledger.

(** What the account functions can raise besides the exceptions above. *)
Inductive failure : Type :=
| Raised (e : exn)
| AttributeError
| DataError.

Definition outcome (A : Type) : Type := failure + A.

(** [src/exceptions.py]; in this flow no other [HTTPException] is raised, so
    an [except InvalidCredentialsException] clause is a test on the value. *)
Definition InvalidCredentialsException : exn :=
  HTTPException 401 "Invalid Username or Password".
Definition InternalServerException : exn :=
  HTTPException 500 "Internal Server Error".

Definition is_InvalidCredentialsException (f : failure) : bool :=
  match f with
  | Raised (HTTPException status_code detail) =>
      (status_code =? 401) && String.eqb detail "Invalid Username or Password"
  | _ => false
  end.

(** The primary key of [account] holds distinct ids, and every
    [role_permission] row points to an existing role and account. *)
Definition account_ids_distinct (db : Database) : Prop :=
  NoDup (Account.id <$> account db) ∧ None ∉ (Account.id <$> account db).

Definition fk_consistent (db : Database) : Prop :=
  ∀ rp : RolePermission.t, rp ∈ role_permission db →
    (∃ r : Role.t, r ∈ role db ∧ Role.id r = Some (RolePermission.role_id rp)) ∧
    (∃ a : Account.t, a ∈ account db ∧
                      Account.id a = Some (RolePermission.account_id rp)).

(** The auto-increment key of [account] starts at 1 and no statement of the
    code writes the column: every stored row has a positive id. *)
Definition account_ids_positive (db : Database) : Prop :=
  ∀ a : Account.t, a ∈ account db → ∃ i : Z, Account.id a = Some i ∧ 0 < i.

Section WithServices.

(** The services the code calls:
    - [same_username stored given]: the database's comparison
      [Account.username == :username] under the column's collation;
    - [accepts_account row]: whether the column types of [account] take the
      row (string lengths); a refused row makes the commit raise;
    - [checkpw password hashed]: [bcrypt.checkpw] on the encoded strings;
    - [ldap_authenticate username password]: the bind and search of
      [authenticate_and_get_user], [None] when it fails in any way. *)
Variable same_username : string → string → bool.
Variable accepts_account : Account.t → bool.
Variable checkpw : string → string → bool.
Variable ldap_authenticate : string → string → option DomainUser.t.

(** [select(Account).where(Account.username == username)] *)
Definition select_account (db : Database) (username : string)
  : list Account.t :=
  List.filter (fun a => same_username (Account.username a) username)
              (account db).

Definition validate_user_name_and_password (db : Database)
    (username password : string) : outcome (option Account.t) :=
  match scalar_one_or_none (select_account db username) with
  | inl e => inl (Raised e)
  | inr None => inr None
  | inr (Some account) =>
      (* [account.password.encode("utf-8")] *)
      match Account.password account with
      | None => inl AttributeError
      | Some hashed =>
          if checkpw password hashed then inr (Some account) else inr None
      end
  end.

Definition read_user_by_id (db : Database) (user_id : Z)
  : result (option Account.t) :=
  scalar_one_or_none
    (List.filter (fun a => bool_decide (Account.id a = Some user_id))
                 (account db)).

(** The [UPDATE] of a loaded row, by its primary key. *)
Definition update_account (db : Database) (row : Account.t) : Database :=
  {| role := role db;
     account := (fun a => if bool_decide (Account.id a = Account.id row)
                          then row else a) <$> account db;
     role_permission := role_permission db;
     log_role_permission := log_role_permission db |}.

(** The [INSERT] of a new row; the key is the next auto-increment value. *)
Definition insert_account (db : Database) (row : Account.t) : Database :=
  {| role := role db;
     account := account db ++ [row];
     role_permission := role_permission db;
     log_role_permission := log_role_permission db |}.

Definition create_or_update_user (db : Database) (username : string)
    (full_name title : option string) : outcome Account.t * Database :=
  match scalar_one_or_none (select_account db username) with
  | inl e => (inl (Raised e), db)
  | inr found =>
      let '(account, written) :=
        match found with
        | Some account =>
            let account :=
              {| Account.id := Account.id account;
                 Account.username := Account.username account;
                 Account.full_name := full_name;
                 Account.password := Account.password account;
                 Account.title := title;
                 Account.is_domain_user := Account.is_domain_user account;
                 Account.is_super_admin := Account.is_super_admin account |} in
            (account, update_account db account)
        | None =>
            let account :=
              {| Account.id := Some (next_id (Account.id <$> Ledger.account db));
                 Account.username := username;
                 Account.full_name := full_name;
                 Account.password := None;
                 Account.title := title;
                 Account.is_domain_user := Some true;
                 Account.is_super_admin := None |} in
            (account, insert_account db account)
        end in
      (* [await session.commit(); await session.refresh(account)] *)
      if accepts_account account
      then
        match Account.id account with
        | None => (inl (Raised IntegrityError), written)
        | Some account_id =>
            match ensure_user_has_role written account_id 2 username with
            | (inl e, db') => (inl (Raised e), db')
            | (inr role_message, db') => (inr account, db')
            end
        end
      else (inl DataError, db)
  end.

(** [routers/auth.py] *)

Definition authenticate_admin (db : Database) (username password : string)
  : outcome Account.t :=
  match validate_user_name_and_password db username password with
  | inl f => inl f
  | inr None => inl (Raised InvalidCredentialsException)
  | inr (Some user) => inr user
  end.

(** [authenticate_and_get_user]: empty credentials are refused before the
    directory is asked. *)
Definition authenticate_and_get_user (username password : string)
  : option DomainUser.t :=
  if String.eqb username "" || String.eqb password ""
  then None
  else ldap_authenticate username password.

Definition authenticate_ad_and_update (db : Database)
    (username password : string) : outcome Account.t * Database :=
  match authenticate_and_get_user username password with
  | None => (inl (Raised InvalidCredentialsException), db)
  | Some windows_account =>
      create_or_update_user db (DomainUser.username windows_account)
        (DomainUser.fullName windows_account)
        (DomainUser.title windows_account)
  end.

(** [login_for_access_token]: the response or the exception raised, and the
    database afterwards. *)
Definition login_for_access_token (db : Database) (form_data : LoginRequest.t)
  : result LoginResponse.t * Database :=
  let username := LoginRequest.username form_data in
  let password := LoginRequest.password form_data in
  let '(body, db') :=
    if String.eqb username "" || String.eqb password ""
    then (inl (Raised InvalidCredentialsException), db)
    else
      let '(user, db') :=
        if String.eqb username "admin"
        then (authenticate_admin db username password, db)
        else authenticate_ad_and_update db username password in
      match user with
      | inl f => (inl f, db')
      | inr user =>
          let roles := get_user_roles db' user in
          (inr {| LoginResponse.userId := Account.id user;
                  LoginResponse.username := Some (Account.username user);
                  LoginResponse.email :=
                    Some (Account.username user +:+ "@andalusiagroup.net");
                  LoginResponse.fullName := Account.full_name user;
                  LoginResponse.title := Account.title user;
                  LoginResponse.roles := Some roles |}, db')
      end in
  match body with
  | inl f =>
      if is_InvalidCredentialsException f
      then (inl InvalidCredentialsException, db')
      else (inl InternalServerException, db')
  | inr response => (inr response, db')
  end.

End WithServices.

End Accounts.

(** ** [back-end/setup_database.py]: the seed *)

Module Setup.
Import Ledger Accounts.

Section WithServices.

(** [hash_password] is bcrypt with a fresh salt; [ADMIN_PASSWORD] is
    [os.getenv("DEFAULT_ADMIN_PASSWORD")]. *)
Variable same_username : string → string → bool.
Variable accepts_account : Account.t → bool.
Variable hash_password : string → string.
Variable ADMIN_PASSWORD : option string.

(** [seed_roles]: it commits by itself. *)
Definition seed_roles (db : Database) : Database :=
  let existing_roles := role db in
  match existing_roles with
  | [] =>
      let admin_id := next_id (Role.id <$> role db) in
      let admin := {| Role.id := Some admin_id; Role.name := "Admin";
                      Role.description := Some "Has full access to the system" |} in
      let user_id := next_id (Role.id <$> (role db ++ [admin])%list) in
      let user := {| Role.id := Some user_id; Role.name := "User";
                     Role.description := Some "Can access basic features" |} in
      {| role := (role db ++ [admin; user])%list;
         account := account db;
         role_permission := role_permission db;
         log_role_permission := log_role_permission db |}
  | _ :: _ => db
  end.

(** [seed_admin_user] followed by the commit of [seed_default_values]: the
    database when the account is written, or the exception that makes
    [seed_default_values] roll back. *)
Definition seed_admin_user (db : Database) : outcome Database :=
  let admin_user := List.head (select_account same_username db "admin") in
  match admin_user with
  | Some _ => inr db
  | None =>
      match ADMIN_PASSWORD with
      | None => inl AttributeError
      | Some password =>
          let hashed_password := hash_password password in
          let admin_user :=
            {| Account.id := Some (next_id (Account.id <$> account db));
               Account.username := "admin";
               Account.password := Some hashed_password;
               Account.full_name := Some "Administrator";
               Account.title := Some "Built-in Administrator";
               Account.is_domain_user := None;
               Account.is_super_admin := Some true |} in
          if accepts_account admin_user
          then inr (insert_account db admin_user)
          else inl DataError
      end
  end.

(** [seed_default_values]: any exception is printed and rolled back; the
    roles, committed before, stay. *)
Definition seed_default_values (db : Database) : Database :=
  let db := seed_roles db in
  match seed_admin_user db with
  | inr db' => db'
  | inl _ => db
  end.

End WithServices.

End Setup.

(** * Properties *)

(** ** The codec *)

Lemma sig_verifies_own (key : string) (claims : payload) :
  sig_verifies key claims (Hmac key claims) = true.
Proof.
  unfold sig_verifies. rewrite !bool_decide_eq_true_2; reflexivity.
Qed.

Lemma jwt_decode_ok_claims (b : bool) (now : Z) (tok : token) (key : string)
    (p : payload) :
  jwt_decode b now tok key = inr p →
  token_claims tok = p ∧ signature_valid key tok = true.
Proof.
  destruct tok as [s | claims sig]; simpl; [discriminate|].
  destruct (sig_verifies key claims sig); [|discriminate].
  destruct (validate_claims b now claims) as [e | []]; simpl; [discriminate|].
  intros [= ->]. split; reflexivity.
Qed.

Lemma jwt_decode_bad_signature (b : bool) (now : Z) (tok : token) (key : string) :
  signature_valid key tok = false → jwt_decode b now tok key = inl JWTError.
Proof.
  destruct tok as [s | claims sig]; simpl; [reflexivity|].
  intros ->. reflexivity.
Qed.

(** Turning the expiry check on adds exactly the [exp] test to a token that
    decodes without it. *)
Lemma validate_claims_with_exp (now : Z) (claims : payload) :
  validate_claims false now claims = inr () →
  validate_claims true now claims =
    match validate_exp now claims with
    | inl e => inl e
    | inr _ => inr ()
    end.
Proof.
  unfold validate_claims. simpl.
  destruct (validate_iat claims) as [e | []]; simpl; [discriminate|].
  destruct (validate_nbf now claims) as [e | []]; simpl; [discriminate|].
  intros H. destruct (validate_exp now claims) as [e | []]; simpl; [reflexivity|].
  exact H.
Qed.

Lemma jwt_decode_with_exp (now : Z) (tok : token) (key : string) (p : payload) :
  jwt_decode false now tok key = inr p →
  jwt_decode true now tok key =
    match validate_exp now p with
    | inl e => inl e
    | inr _ => inr p
    end.
Proof.
  destruct tok as [s | claims sig]; simpl; [discriminate|].
  destruct (sig_verifies key claims sig); [|discriminate].
  destruct (validate_claims false now claims) as [e | []] eqn:Hv; simpl; [discriminate|].
  intros [= <-]. rewrite (validate_claims_with_exp _ _ Hv).
  destruct (validate_exp now claims) as [e | []]; reflexivity.
Qed.

(** ** Issuance and verification *)

Module AppSpec.
Import App.

Section WithConfig.

Variable SECRET_KEY : string.
Variable SECURE_COOKIE : bool.

#[local] Abbreviation create_jwt_token := (create_jwt_token SECRET_KEY).
#[local] Abbreviation verify_jwt_token := (verify_jwt_token SECRET_KEY).
#[local] Abbreviation refresh_token := (refresh_token SECRET_KEY SECURE_COOKIE).

(** The claims written by [create_jwt_token]. *)
Lemma create_claims (now : Z) (user : UserPayload) (ex : option value) :
  let p := token_claims (create_jwt_token now user ex) in
  p !! "sub" = Some (VStr (username user)) ∧
  p !! "iat" = Some (VNum now) ∧
  p !! "exp" = Some (VNum (now + hours ACCESS_TOKEN_EXPIRE_HOURS)) ∧
  p !! "max_exp" =
    Some (match ex with
          | Some ts => ts
          | None => VNum (Z.max (now + hours ACCESS_TOKEN_EXPIRE_HOURS)
                                (now + days MAX_TOKEN_LIFETIME_DAYS))
          end) ∧
  p !! "nbf" = None ∧ p !! "aud" = None ∧ p !! "jti" = None ∧
  p !! "at_hash" = None ∧
  p !! "userId" = Some (VNum (userId user)) ∧
  p !! "username" = Some (VStr (username user)) ∧
  p !! "fullname" = Some (VStr (fullname user)) ∧
  p !! "title" = Some (VStr (title user)) ∧
  p !! "email" = Some (VStr (email user)) ∧
  p !! "roles" = Some (VList (VNum <$> roles user)).
Proof.
  destruct ex; repeat split; reflexivity.
Qed.

Lemma create_is_signed (now : Z) (user : UserPayload) (ex : option value) :
  create_jwt_token now user ex =
  Jws (token_claims (create_jwt_token now user ex))
      (Hmac SECRET_KEY (token_claims (create_jwt_token now user ex))).
Proof. reflexivity. Qed.

Lemma int_list_of_nums (l : list Z) : int_list (VNum <$> l) = inr l.
Proof.
  induction l as [|n l IH]; [reflexivity|].
  rewrite fmap_cons. cbn [int_list]. rewrite IH. reflexivity.
Qed.

Lemma UserPayload_of_created (now : Z) (user : UserPayload) (ex : option value) :
  UserPayload_of (token_claims (create_jwt_token now user ex)) = inr user.
Proof.
  destruct (create_claims now user ex)
    as (_ & _ & _ & _ & _ & _ & _ & _ & Hi & Hu & Hf & Ht & He & Hr).
  unfold UserPayload_of, field_int, field_str, field_int_list.
  rewrite Hi, Hu, Hf, Ht, He, Hr. simpl.
  rewrite int_list_of_nums. simpl. destruct user; reflexivity.
Qed.

(** A freshly made token decodes, whatever its [max_exp]: always when the
    expiry check is off, and up to its [exp] when it is on. *)
Lemma decode_created (b : bool) (now t : Z) (user : UserPayload)
    (ex : option value) :
  (b = true → t ≤ now + hours ACCESS_TOKEN_EXPIRE_HOURS) →
  jwt_decode b t (create_jwt_token now user ex) SECRET_KEY =
  inr (token_claims (create_jwt_token now user ex)).
Proof.
  intros Ht.
  destruct (create_claims now user ex)
    as (Hsub & Hiat & Hexp & _ & Hnbf & Haud & Hjti & Hat & _).
  rewrite create_is_signed at 1.
  set (p := token_claims _) in *. unfold jwt_decode. rewrite sig_verifies_own.
  unfold validate_claims, validate_iat, validate_nbf, validate_exp,
    validate_aud, validate_str, validate_at_hash.
  rewrite Hsub, Hiat, Hexp, Hnbf, Haud, Hjti, Hat. simpl.
  destruct b; simpl; [|reflexivity].
  destruct (Z.ltb_spec (now + hours ACCESS_TOKEN_EXPIRE_HOURS) t) as [Hlt|_];
    [specialize (Ht eq_refl); lia | reflexivity].
Qed.

Lemma verify_of_issue_any (user : UserPayload) (now t : Z) :
  t ≤ now + hours ACCESS_TOKEN_EXPIRE_HOURS →
  verify_jwt_token t (create_jwt_token now user None) = inr user.
Proof.
  intros Ht. unfold App.verify_jwt_token.
  rewrite (decode_created true now t user None (fun _ => Ht)).
  destruct (create_claims now user None) as (Hsub & _ & _ & Hmax & _).
  pose proof (UserPayload_of_created now user None) as Hu.
  set (p := token_claims _) in *.
  clearbody p.
  cbn [bind]. rewrite Hsub, Hmax. cbn. rewrite Hu.
  destruct (Z.ltb_spec (Z.max (now + hours ACCESS_TOKEN_EXPIRE_HOURS)
                              (now + days MAX_TOKEN_LIFETIME_DAYS)) t) as [Hlt|_];
    [lia|reflexivity].
Qed.

(** C2. For every identity of the user store, verifying the token issued for
    it, at any time up to the token's access expiry, succeeds and returns
    that identity: [userId], [username], [fullname], [title], [email] and
    [roles] are those issued. *)
Theorem verify_of_issue (name : string) (user : UserPayload) (now t : Z) :
  users_db !! name = Some user →
  t ≤ now + hours ACCESS_TOKEN_EXPIRE_HOURS →
  token_claims (create_jwt_token now user None) !! "exp"
    = Some (VNum (now + hours ACCESS_TOKEN_EXPIRE_HOURS)) ∧
  verify_jwt_token t (create_jwt_token now user None) = inr user.
Proof.
  intros _ Ht. split; [reflexivity|]. apply verify_of_issue_any, Ht.
Qed.


(** *** The refresh flow *)

Lemma decode_ok_has_token (b : bool) (now : Z) (tok : token) (p : payload) :
  jwt_decode b now tok SECRET_KEY = inr p → no_token (Some tok) = false.
Proof. destruct tok; simpl; [discriminate|reflexivity]. Qed.

Lemma truthy_Some (v : option value) : truthy v = true → ∃ x, v = Some x.
Proof. destruct v as [x|]; [eauto|discriminate]. Qed.

Lemma token_data_ok (now : Z) (request : Request) (tok : token) (p : payload) :
  cookies request !! COOKIE_NAME = Some tok →
  jwt_decode false now tok SECRET_KEY = inr p →
  truthy (p !! "sub") = true → truthy (p !! "iat") = true →
  truthy (p !! "max_exp") = true →
  get_token_data_for_refresh SECRET_KEY now request = inr (tok, p).
Proof.
  intros Hc Hd Hs Hi Hm. unfold get_token_data_for_refresh.
  rewrite Hc, (decode_ok_has_token _ _ _ _ Hd), Hd. cbn [try_except bind].
  rewrite Hs, Hi, Hm. reflexivity.
Qed.

Lemma token_data_inv (now : Z) (request : Request) (tok : token) (p : payload) :
  get_token_data_for_refresh SECRET_KEY now request = inr (tok, p) →
  cookies request !! COOKIE_NAME = Some tok ∧
  jwt_decode false now tok SECRET_KEY = inr p ∧
  truthy (p !! "sub") = true ∧ truthy (p !! "iat") = true ∧
  truthy (p !! "max_exp") = true.
Proof.
  unfold get_token_data_for_refresh.
  destruct (cookies request !! COOKIE_NAME) as [tok0|]; [|discriminate].
  destruct (no_token (Some tok0)); [discriminate|].
  destruct (jwt_decode false now tok0 SECRET_KEY) as [e|p0] eqn:Hd;
    cbn [try_except bind].
  - destruct (is_JWTError e); discriminate.
  - destruct (truthy (p0 !! "sub")) eqn:Hs; [|discriminate].
    destruct (truthy (p0 !! "iat")) eqn:Hi; [|discriminate].
    destruct (truthy (p0 !! "max_exp")) eqn:Hm; [|discriminate].
    cbn. intros [= <- <-]. repeat split; assumption.
Qed.

(** C3. A well-formed, correctly signed token (it decodes with the expiry
    check off and passes the structure test of the refresh dependency) whose
    [max_exp] lies strictly before the current time is refused by [/refresh]
    with 401 and the maximum-lifetime message. Nothing is assumed about
    [exp] or about [iat] and the refresh interval. *)
Theorem refresh_after_max_exp (now : Z) (request : Request) (response : Response)
    (tok : token) (p : payload) (max_exp : Z) :
  cookies request !! COOKIE_NAME = Some tok →
  jwt_decode false now tok SECRET_KEY = inr p →
  truthy (p !! "sub") = true → truthy (p !! "iat") = true →
  truthy (p !! "max_exp") = true →
  p !! "max_exp" ≫= as_number = Some max_exp →
  max_exp < now →
  refresh_token now request response =
  inl (HTTPException 401
         "Maximum session lifetime exceeded. Please log in again.").
Proof.
  intros Hc Hd Hs Hi Hm Hnum Hlt. unfold App.refresh_token.
  rewrite (token_data_ok _ _ _ _ Hc Hd Hs Hi Hm). cbn [bind].
  destruct (truthy_Some _ Hs) as [vs Es].
  destruct (truthy_Some _ Hi) as [vi Ei].
  destruct (truthy_Some _ Hm) as [vm Em].
  unfold getitem. rewrite Es, Em, Ei. cbn [bind ret].
  rewrite Em in Hnum. cbn in Hnum.
  unfold now_gt. cbn [mbind option_bind]. rewrite Hnum. cbn [bind ret].
  destruct (Z.ltb_spec max_exp now); [reflexivity|lia].
Qed.

(** C4. For a well-formed, correctly signed token still within its absolute
    lifetime, a refresh strictly before [iat + REFRESH_INTERVAL] returns
    normally with [refresh_success = false] and
    [next_refresh_allowed_at = iat + REFRESH_INTERVAL], and the response
    carries exactly the cookies it had: none is set or replaced. *)
Theorem refresh_before_interval (now : Z) (request : Request)
    (response : Response) (tok : token) (p : payload) (max_exp iat : Z) :
  cookies request !! COOKIE_NAME = Some tok →
  jwt_decode false now tok SECRET_KEY = inr p →
  truthy (p !! "sub") = true → truthy (p !! "iat") = true →
  truthy (p !! "max_exp") = true →
  p !! "max_exp" ≫= as_number = Some max_exp →
  p !! "iat" ≫= as_number = Some iat →
  now ≤ max_exp →
  now < iat + hours REFRESH_INTERVAL_HOURS →
  refresh_token now request response =
  inr ({| message := "Refresh interval not met, try again later.";
          refresh_success := false;
          next_refresh_allowed_at := Some (iat + hours REFRESH_INTERVAL_HOURS) |},
       response).
Proof.
  intros Hc Hd Hs Hi Hm Hnum Hiat Hle Hlt. unfold App.refresh_token.
  rewrite (token_data_ok _ _ _ _ Hc Hd Hs Hi Hm). cbn [bind].
  destruct (truthy_Some _ Hs) as [vs Es].
  destruct (truthy_Some _ Hi) as [vi Ei].
  destruct (truthy_Some _ Hm) as [vm Em].
  unfold getitem. rewrite Es, Em, Ei. cbn [bind ret].
  rewrite Em in Hnum. rewrite Ei in Hiat. cbn in Hnum, Hiat.
  unfold now_gt. cbn [mbind option_bind]. rewrite Hnum. cbn [bind ret].
  destruct (Z.ltb_spec max_exp now); [lia|].
  rewrite Hiat. cbn [bind ret].
  destruct (Z.ltb_spec now (iat + hours REFRESH_INTERVAL_HOURS)); [reflexivity|lia].
Qed.

(** C5. A token whose signature does not verify under the signing secret is
    rejected by [verify_jwt_token] with 401 "Could not validate credentials"
    and by [/refresh] with 401 "Invalid token format"; neither answer is the
    expired-token one. *)
Theorem bad_signature_is_invalid (now : Z) (tok : token) :
  signature_valid SECRET_KEY tok = false →
  verify_jwt_token now tok = inl credentials_exception ∧
  credentials_exception ≠ token_expired_exception ∧
  ∀ (request : Request) (response : Response),
    cookies request !! COOKIE_NAME = Some tok →
    no_token (Some tok) = false →
    refresh_token now request response =
    inl (HTTPException 401 "Invalid token format") ∧
    HTTPException 401 "Invalid token format" ≠ token_expired_exception.
Proof.
  intros Hsig. split; [|split].
  - unfold App.verify_jwt_token.
    rewrite (jwt_decode_bad_signature _ _ _ _ Hsig). reflexivity.
  - discriminate.
  - intros request response Hc Hne. split; [|discriminate].
    unfold App.refresh_token, get_token_data_for_refresh.
    rewrite Hc, Hne, (jwt_decode_bad_signature _ _ _ _ Hsig). reflexivity.
Qed.

(** *** Successful refreshes *)

Lemma attach_created (now : Z) (response : Response) (user : UserPayload)
    (ex : option value) :
  attach_token_to_response SECRET_KEY SECURE_COOKIE now response
    (create_jwt_token now user ex) =
  inr (set_cookie response
         {| cookie_key := COOKIE_NAME;
            cookie_value := create_jwt_token now user ex;
            cookie_httponly := true; cookie_secure := SECURE_COOKIE;
            cookie_samesite := "lax";
            cookie_max_age := hours ACCESS_TOKEN_EXPIRE_HOURS;
            cookie_path := "/" |}).
Proof.
  unfold attach_token_to_response.
  rewrite (decode_created false now now user ex) by discriminate.
  destruct (create_claims now user ex) as (_ & _ & Hexp & _).
  generalize dependent (create_jwt_token now user ex). intros tok Hexp.
  cbn [try_except bind ret]. rewrite Hexp. cbn [truthy mbind option_bind as_number].
  destruct (now + hours ACCESS_TOKEN_EXPIRE_HOURS =? 0);
    cbn [negb bind ret]; [reflexivity|].
  replace (Z.max 0 (now + hours ACCESS_TOKEN_EXPIRE_HOURS - now))
    with (hours ACCESS_TOKEN_EXPIRE_HOURS)
    by (unfold hours, ACCESS_TOKEN_EXPIRE_HOURS; lia).
  reflexivity.
Qed.

(** What a successful refresh did: the cookie sent decodes, and the cookie
    written holds a token made at [now] for a stored user with the [max_exp]
    value of the token sent. *)
Lemma refresh_step_at_inv (now : Z) (tok tok' : token) :
  refresh_step_at SECRET_KEY SECURE_COOKIE now tok tok' →
  ∃ (p : payload) (max_exp_ts : value) (user : UserPayload),
    jwt_decode false now tok SECRET_KEY = inr p ∧
    p !! "max_exp" = Some max_exp_ts ∧
    now_gt now (Some max_exp_ts) = inr false ∧
    tok' = create_jwt_token now user (Some max_exp_ts).
Proof.
  intros (request & response & body & response' & Hc & Hr & Hs & Hhd).
  unfold App.refresh_token in Hr.
  destruct (get_token_data_for_refresh SECRET_KEY now request)
    as [e|[tok0 p]] eqn:Hdep; [discriminate|].
  cbn [bind] in Hr.
  apply token_data_inv in Hdep as (Hc' & Hd & Hsub & Hiat & Hmax).
  rewrite Hc in Hc'. injection Hc' as <-.
  destruct (truthy_Some _ Hsub) as [vs Es].
  destruct (truthy_Some _ Hiat) as [vi Ei].
  destruct (truthy_Some _ Hmax) as [vm Em].
  unfold getitem in Hr. rewrite Es, Em, Ei in Hr. cbn [bind ret] in Hr.
  destruct (now_gt now (Some vm)) as [e|[]] eqn:Hgt; cbn [bind] in Hr;
    try discriminate.
  destruct (as_number vi) as [iat|]; cbn [bind ret raise] in Hr; [|discriminate].
  destruct (now <? iat + hours REFRESH_INTERVAL_HOURS).
  { injection Hr as <- _. discriminate. }
  match type of Hr with
  | bind ?m _ = _ => destruct m as [e|[]]; cbn [bind] in Hr; [discriminate|]
  end.
  destruct (users_db_get vs) as [e|[user|]]; cbn [bind raise] in Hr;
    try discriminate.
  rewrite attach_created in Hr. cbn [bind ret] in Hr.
  injection Hr as _ <-. cbn in Hhd. injection Hhd as <-.
  exists p, vm, user. auto.
Qed.

Lemma refresh_step_max_exp (tok tok' : token) :
  refresh_step SECRET_KEY SECURE_COOKIE tok tok' →
  token_claims tok' !! "max_exp" = token_claims tok !! "max_exp".
Proof.
  intros [now Hstep].
  apply refresh_step_at_inv in Hstep as (p & vm & user & Hd & Hm & _ & ->).
  apply jwt_decode_ok_claims in Hd as [-> _].
  destruct (create_claims now user (Some vm)) as (_ & _ & _ & Hmax & _).
  rewrite Hmax, Hm. reflexivity.
Qed.

(** C1, as the code has it. A freshly issued token has [exp <= max_exp];
    along any chain of successful refreshes the [max_exp] claim of the token
    is the one of the first token, unchanged; and a refresh succeeds only at
    a time [now <= max_exp] and writes a token with
    [exp = now + ACCESS_TOKEN_EXPIRE_HOURS] (which lies beyond [max_exp] when
    less than the access lifetime is left). *)
Theorem max_exp_fixed_along_refreshes :
  (∀ (now : Z) (user : UserPayload),
     ∃ exp max_exp : Z,
       token_claims (create_jwt_token now user None) !! "exp" = Some (VNum exp) ∧
       token_claims (create_jwt_token now user None) !! "max_exp"
         = Some (VNum max_exp) ∧
       exp ≤ max_exp) ∧
  (∀ tok tok' : token,
     rtc (refresh_step SECRET_KEY SECURE_COOKIE) tok tok' →
     token_claims tok' !! "max_exp" = token_claims tok !! "max_exp") ∧
  (∀ (now : Z) (tok tok' : token),
     refresh_step_at SECRET_KEY SECURE_COOKIE now tok tok' →
     token_claims tok' !! "exp"
       = Some (VNum (now + hours ACCESS_TOKEN_EXPIRE_HOURS)) ∧
     ∀ max_exp : Z,
       token_claims tok !! "max_exp" ≫= as_number = Some max_exp →
       now ≤ max_exp).
Proof.
  split; [|split].
  - intros now user.
    destruct (create_claims now user None) as (_ & _ & Hexp & Hmax & _).
    eexists _, _. split; [exact Hexp|]. split; [exact Hmax|]. lia.
  - intros tok tok' Hchain.
    induction Hchain as [tok|tok tok1 tok' Hstep _ IH]; [reflexivity|].
    rewrite IH. apply refresh_step_max_exp, Hstep.
  - intros now tok tok' Hstep.
    apply refresh_step_at_inv in Hstep as (p & vm & user & Hd & Hm & Hgt & ->).
    destruct (create_claims now user (Some vm)) as (_ & _ & Hexp & _).
    split; [exact Hexp|]. intros max_exp Hnum.
    apply jwt_decode_ok_claims in Hd as [<- _].
    rewrite Hm in Hnum. unfold now_gt in Hgt. rewrite Hnum in Hgt.
    injection Hgt as Hgt. apply Z.ltb_ge in Hgt. exact Hgt.
Qed.

End WithConfig.

Lemma verify_of_issue_witness :
  users_db !! "regular_user" = Some regular_user ∧
  1700086400 ≤ 1700000000 + hours ACCESS_TOKEN_EXPIRE_HOURS ∧
  verify_jwt_token "dev-key" 1700086400
    (create_jwt_token "dev-key" 1700000000 regular_user None)
  = inr regular_user.
Proof.
  assert (Hdb : users_db !! "regular_user" = Some regular_user) by reflexivity.
  assert (Ht : 1700086400 ≤ 1700000000 + hours ACCESS_TOKEN_EXPIRE_HOURS)
    by (vm_compute; discriminate).
  split; [exact Hdb|]. split; [exact Ht|].
  exact (proj2 (verify_of_issue "dev-key" "regular_user" regular_user
                  1700000000 1700086400 Hdb Ht)).
Defined.

(** A refresh eight days after issuance, with a seven-day lifetime. *)
Lemma refresh_after_max_exp_witness :
  let tok := create_jwt_token "dev-key" 1700000000 admin_user None in
  1700604800 < 1700691200 ∧
  refresh_token "dev-key" true 1700691200
    {| cookies := {[COOKIE_NAME := tok]} |} {| set_cookies := [] |} =
  inl (HTTPException 401
         "Maximum session lifetime exceeded. Please log in again.").
Proof.
  intros tok. split; [lia|].
  apply (refresh_after_max_exp "dev-key" true 1700691200 _ _ tok
           (token_claims tok) 1700604800);
    try reflexivity.
Defined.

(** A refresh two minutes after issuance. *)
Lemma refresh_before_interval_witness :
  let tok := create_jwt_token "dev-key" 1700000000 admin_user None in
  1700000120 < 1700000000 + hours REFRESH_INTERVAL_HOURS ∧
  refresh_token "dev-key" true 1700000120
    {| cookies := {[COOKIE_NAME := tok]} |} {| set_cookies := [] |} =
  inr ({| message := "Refresh interval not met, try again later.";
          refresh_success := false;
          next_refresh_allowed_at := Some 1700003600 |},
       {| set_cookies := [] |}).
Proof.
  intros tok.
  assert (Hlt : 1700000120 < 1700000000 + hours REFRESH_INTERVAL_HOURS)
    by reflexivity.
  split; [exact Hlt|].
  apply (refresh_before_interval "dev-key" true 1700000120 _ _ tok
           (token_claims tok) 1700604800 1700000000);
    try reflexivity; vm_compute; discriminate.
Defined.

(** The admin token with its role list rewritten after signing. *)
Lemma bad_signature_is_invalid_witness :
  let claims :=
    token_claims (create_jwt_token "dev-key" 1700000000 regular_user None) in
  let tok := Jws (<["roles" := VList [VNum 1; VNum 2]]> claims)
                 (Hmac "dev-key" claims) in
  signature_valid "dev-key" tok = false ∧
  verify_jwt_token "dev-key" 1700000120 tok = inl credentials_exception ∧
  refresh_token "dev-key" true 1700000120
    {| cookies := {[COOKIE_NAME := tok]} |} {| set_cookies := [] |} =
  inl (HTTPException 401 "Invalid token format").
Proof.
  intros claims tok.
  assert (Hsig : signature_valid "dev-key" tok = false) by (vm_compute; reflexivity).
  destruct (bad_signature_is_invalid "dev-key" true 1700000120 tok Hsig)
    as (Hv & _ & Hr).
  split; [exact Hsig|]. split; [exact Hv|].
  exact (proj1 (Hr {| cookies := {[COOKIE_NAME := tok]} |} {| set_cookies := [] |}
                  eq_refl eq_refl)).
Defined.

(** C1 as stated fails on the refresh path: a token issued at 1700000000
    (so [max_exp = 1700604800]) and refreshed six and a half days later gets
    [exp = 1700648000], beyond its [max_exp]. *)
Lemma refresh_exp_past_max_exp :
  let tok := create_jwt_token "dev-key" 1700000000 admin_user None in
  let tok' := create_jwt_token "dev-key" 1700561600 admin_user
                (Some (VNum 1700604800)) in
  refresh_step_at "dev-key" true 1700561600 tok tok' ∧
  token_claims tok' !! "exp" = Some (VNum 1700648000) ∧
  token_claims tok' !! "max_exp" = Some (VNum 1700604800) ∧
  ¬ (1700648000 ≤ 1700604800).
Proof.
  intros tok tok'. split; [|split; [reflexivity|split; [reflexivity|lia]]].
  exists {| cookies := {[COOKIE_NAME := tok]} |}, {| set_cookies := [] |},
    {| message := "Token refreshed successfully"; refresh_success := true;
     next_refresh_allowed_at := None |},
    {| set_cookies :=
       [{| cookie_key := COOKIE_NAME; cookie_value := tok';
           cookie_httponly := true; cookie_secure := true;
           cookie_samesite := "lax"; cookie_max_age := 86400;
           cookie_path := "/" |}] |}.
  split; [reflexivity|]. split; [vm_compute; reflexivity|].
  split; reflexivity.
Qed.

(** Two refreshes, two hours and then six and a half days after issuance. *)
Lemma max_exp_fixed_along_refreshes_witness :
  let tok := create_jwt_token "dev-key" 1700000000 admin_user None in
  let tok1 := create_jwt_token "dev-key" 1700007200 admin_user
                (Some (VNum 1700604800)) in
  let tok2 := create_jwt_token "dev-key" 1700561600 admin_user
                (Some (VNum 1700604800)) in
  rtc (refresh_step "dev-key" true) tok tok2 ∧
  token_claims tok2 !! "max_exp" = token_claims tok !! "max_exp" ∧
  token_claims tok2 !! "exp"
    = Some (VNum (1700561600 + hours ACCESS_TOKEN_EXPIRE_HOURS)).
Proof.
  intros tok tok1 tok2.
  assert (H1 : refresh_step_at "dev-key" true 1700007200 tok tok1).
  { exists {| cookies := {[COOKIE_NAME := tok]} |}, {| set_cookies := [] |},
      {| message := "Token refreshed successfully"; refresh_success := true;
         next_refresh_allowed_at := None |},
      {| set_cookies :=
           [{| cookie_key := COOKIE_NAME; cookie_value := tok1;
               cookie_httponly := true; cookie_secure := true;
               cookie_samesite := "lax"; cookie_max_age := 86400;
               cookie_path := "/" |}] |}.
    split; [reflexivity|]. split; [vm_compute; reflexivity|].
    split; reflexivity. }
  assert (H2 : refresh_step_at "dev-key" true 1700561600 tok1 tok2).
  { exists {| cookies := {[COOKIE_NAME := tok1]} |}, {| set_cookies := [] |},
      {| message := "Token refreshed successfully"; refresh_success := true;
         next_refresh_allowed_at := None |},
      {| set_cookies :=
           [{| cookie_key := COOKIE_NAME; cookie_value := tok2;
               cookie_httponly := true; cookie_secure := true;
               cookie_samesite := "lax"; cookie_max_age := 86400;
               cookie_path := "/" |}] |}.
    split; [reflexivity|]. split; [vm_compute; reflexivity|].
    split; reflexivity. }
  assert (Hchain : rtc (refresh_step "dev-key" true) tok tok2).
  { eapply rtc_l; [exists 1700007200; exact H1|].
    eapply rtc_l; [exists 1700561600; exact H2|]. apply rtc_refl. }
  destruct (max_exp_fixed_along_refreshes "dev-key" true) as (_ & Hfix & Hexp).
  split; [exact Hchain|]. split; [exact (Hfix tok tok2 Hchain)|].
  exact (proj1 (Hexp 1700561600 tok1 tok2 H2)).
Defined.

End AppSpec.

(** ** The renewal middleware *)

Module MiddlewareSpec.
Import Middleware.

Section WithConfig.

Variable SECRET_KEY : string.

#[local] Abbreviation dispatch := (dispatch SECRET_KEY).







(** C9. When the middleware reissues a token (the token decodes and its
    [exp] is at most the renewal threshold away), the cookie it sets holds a
    token signed with the secret whose claims are those of the old token at
    every key other than ["exp"], and whose ["exp"] is
    [now + ACCESS_TOKEN_EXPIRE_MINUTES]. *)
Theorem renewal_changes_only_exp (now : Z) (request : Request) (tok : token)
    (p : payload) (exp : Z) :
  cookies request !! "access_token" = Some tok →
  jwt_decode true now tok SECRET_KEY = inr p →
  p !! "exp" ≫= as_number = Some exp →
  exp - now ≤ minutes TOKEN_RENEW_THRESHOLD_MINUTES →
  ∃ c : Cookie,
    dispatch now request = inr (CallNext (Some c)) ∧
    signature_valid SECRET_KEY (cookie_value c) = true ∧
    token_claims (cookie_value c) !! "exp"
      = Some (VNum (now + minutes ACCESS_TOKEN_EXPIRE_MINUTES)) ∧
    ∀ k : string, k ≠ "exp" →
      token_claims (cookie_value c) !! k = token_claims tok !! k.
Proof.
  intros Hc Hd Hexp Hle. unfold Middleware.dispatch. rewrite Hc.
  assert (Hnt : no_token (Some tok) = false)
    by (destruct tok; [discriminate Hd|reflexivity]).
  rewrite Hnt, Hd. cbn [try_except bind].
  destruct (p !! "exp") as [v|] eqn:Ev; [|discriminate].
  cbn in Hexp. unfold getitem, fromtimestamp. rewrite Ev. cbn [bind ret].
  rewrite Hexp. cbn [bind ret].
  destruct (Z.leb_spec (exp - now) (minutes TOKEN_RENEW_THRESHOLD_MINUTES));
    [|lia].
  eexists. split; [reflexivity|]. cbn [cookie_value].
  apply jwt_decode_ok_claims in Hd as [-> _].
  split; [apply sig_verifies_own|]. split.
  - apply lookup_insert_eq.
  - intros k Hk. cbn [token_claims jwt_encode]. apply lookup_insert_ne. congruence.
Qed.

End WithConfig.



(** A token with ten minutes left. *)
Lemma renewal_changes_only_exp_witness :
  let p : payload := <["sub" := VStr "jdoe"]> {["exp" := VNum 1700000600]} in
  let tok := jwt_encode p "dev-key" in
  ∃ c : Cookie,
    dispatch "dev-key" 1700000000 {| cookies := {["access_token" := tok]} |}
      = inr (CallNext (Some c)) ∧
    token_claims (cookie_value c) !! "exp" = Some (VNum 1700001200) ∧
    token_claims (cookie_value c) !! "sub" = Some (VStr "jdoe").
Proof.
  intros p tok.
  assert (Hc : cookies {| cookies := {["access_token" := tok]} |}
                 !! "access_token" = Some tok) by reflexivity.
  assert (Hdec : jwt_decode true 1700000000 tok "dev-key" = inr p)
    by (vm_compute; reflexivity).
  assert (Hnum : p !! "exp" ≫= as_number = Some 1700000600) by reflexivity.
  assert (Hle : 1700000600 - 1700000000 ≤ minutes TOKEN_RENEW_THRESHOLD_MINUTES)
    by (vm_compute; discriminate).
  destruct (renewal_changes_only_exp "dev-key" 1700000000 _ tok p 1700000600
              Hc Hdec Hnum Hle)
    as (c & Hd & _ & Hexp & Hother).
  exists c. split; [exact Hd|]. split; [exact Hexp|].
  rewrite (Hother "sub") by discriminate. reflexivity.
Defined.

End MiddlewareSpec.

(** ** The role ledger *)

Module LedgerSpec.
Import Ledger.

Lemma select_after_insert (db : Database) (row : RolePermission.t)
    (account_id role_id : Z) :
  RolePermission.account_id row = account_id →
  RolePermission.role_id row = role_id →
  select_role_permission
    {| role := role db; account := account db;
       role_permission := (role_permission db ++ [row])%list;
       log_role_permission := log_role_permission db |} account_id role_id
  = (select_role_permission db account_id role_id ++ [row])%list.
Proof.
  intros Ha Hr. unfold select_role_permission. cbn [role_permission].
  rewrite List.filter_app. cbn [List.filter].
  rewrite Ha, Hr, !Z.eqb_refl. reflexivity.
Qed.

(** No path of the grant writes the audit table. *)
Lemma ensure_keeps_log (db : Database) (account_id role_id : Z)
    (username : string) :
  log_role_permission (ensure_user_has_role db account_id role_id username).2
  = log_role_permission db.
Proof.
  unfold ensure_user_has_role, add_role_permission.
  destruct (scalar_one_or_none _) as [e|[existing|]]; try reflexivity.
  destruct (foreign_keys_ok _ _); reflexivity.
Qed.

(** An existing pair: the database is left as it is. *)
Lemma ensure_existing (db : Database) (account_id role_id : Z)
    (username : string) :
  select_role_permission db account_id role_id ≠ [] →
  (ensure_user_has_role db account_id role_id username).2 = db.
Proof.
  intros Hne. unfold ensure_user_has_role.
  destruct (select_role_permission db account_id role_id) as [|r1 [|r2 rows]];
    [congruence|reflexivity|reflexivity].
Qed.

(** C6, as the code has it. For an account and a role: if the pair is
    already assigned the grant inserts nothing and answers that the role is
    already assigned; if it is absent, and the account and the role exist,
    the grant appends one assignment row for the pair, after which the pair
    has exactly one row and a second grant is the no-op; and in every case
    the audit table [log_role_permission] is left as it was. *)
Theorem grant_is_idempotent (db : Database) (account_id role_id : Z)
    (username : string) :
  let new_row := {| RolePermission.id := None;
                    RolePermission.role_id := role_id;
                    RolePermission.account_id := account_id |} in
  log_role_permission (ensure_user_has_role db account_id role_id username).2
    = log_role_permission db ∧
  (select_role_permission db account_id role_id ≠ [] →
   (ensure_user_has_role db account_id role_id username).2 = db) ∧
  (∀ row, select_role_permission db account_id role_id = [row] →
     ensure_user_has_role db account_id role_id username
     = (inr ("Role already assigned to user '" +:+ username +:+ "'."), db)) ∧
  (select_role_permission db account_id role_id = [] →
   foreign_keys_ok db new_row = true →
   ∃ (row : RolePermission.t) (db' : Database),
     RolePermission.account_id row = account_id ∧
     RolePermission.role_id row = role_id ∧
     ensure_user_has_role db account_id role_id username
       = (inr ("Role successfully assigned to user '" +:+ username +:+ "'."), db') ∧
     role db' = role db ∧ account db' = account db ∧
     role_permission db' = (role_permission db ++ [row])%list ∧
     select_role_permission db' account_id role_id = [row] ∧
     ensure_user_has_role db' account_id role_id username
       = (inr ("Role already assigned to user '" +:+ username +:+ "'."), db')).
Proof.
  intros new_row. split; [apply ensure_keeps_log|].
  split; [apply ensure_existing|]. split.
  - intros row Hsel. unfold ensure_user_has_role. rewrite Hsel. reflexivity.
  - intros Hsel Hfk.
    set (row := {| RolePermission.id :=
                     Some (next_id (RolePermission.id <$> role_permission db));
                   RolePermission.role_id := role_id;
                   RolePermission.account_id := account_id |}).
    set (db' := {| role := role db; account := account db;
                   role_permission := (role_permission db ++ [row])%list;
                   log_role_permission := log_role_permission db |}).
    assert (Hsel' : select_role_permission db' account_id role_id = [row]).
    { unfold db'. rewrite (select_after_insert db row account_id role_id)
        by reflexivity. rewrite Hsel. reflexivity. }
    exists row, db'. repeat split; try reflexivity.
    + unfold ensure_user_has_role, add_role_permission.
      rewrite Hsel. cbn [scalar_one_or_none ret]. fold new_row. rewrite Hfk.
      reflexivity.
    + exact Hsel'.
    + unfold ensure_user_has_role. rewrite Hsel'. reflexivity.
Qed.

(** The role names assigned to an account are those of the roles joined to
    one of its assignment rows. *)
Lemma select_role_names_of_spec (db : Database) (account_id : Z) (name : string) :
  name ∈ select_role_names_of db account_id ↔
  ∃ (r : Role.t) (rp : RolePermission.t),
    r ∈ role db ∧ rp ∈ role_permission db ∧
    Role.id r = Some (RolePermission.role_id rp) ∧
    RolePermission.account_id rp = account_id ∧
    name = Role.name r.
Proof.
  unfold select_role_names_of. rewrite list_elem_of_bind. split.
  - intros (r & Hin & Hr). apply list_elem_of_bind in Hin as (rp & Hin & Hrp).
    destruct (bool_decide (Role.id r = Some (RolePermission.role_id rp)))
      eqn:Hid; cbn [andb] in Hin; [|by apply not_elem_of_nil in Hin].
    destruct (Z.eqb_spec (RolePermission.account_id rp) account_id) as [Ha|];
      [|by apply not_elem_of_nil in Hin].
    apply list_elem_of_singleton in Hin. apply bool_decide_eq_true_1 in Hid.
    eauto 10.
  - intros (r & rp & Hr & Hrp & Hid & Ha & ->).
    exists r. split; [|exact Hr]. apply list_elem_of_bind. exists rp.
    split; [|exact Hrp].
    rewrite (bool_decide_eq_true_2 _ Hid), Ha, Z.eqb_refl.
    apply list_elem_of_singleton. reflexivity.
Qed.

(** What [get_user_roles] returns for a super admin, and for any other
    account whose id is a non-zero number. *)
Lemma get_user_roles_cases (db : Database) (user : Account.t) :
  (Account.is_super_admin user = Some true →
   get_user_roles db user = Role.name <$> role db) ∧
  (∀ a : Z,
     bool_truthy (Account.is_super_admin user) = false →
     Account.id user = Some a → a ≠ 0 →
     get_user_roles db user = select_role_names_of db a).
Proof.
  unfold get_user_roles. split.
  - intros ->. reflexivity.
  - intros a -> -> Ha. cbn [read_roles].
    destruct (Z.eqb_spec a 0); [contradiction|reflexivity].
Qed.

(** C10. [read_roles] called with account id [0], with [None], or without
    an account id (the default [None]) returns the names of all roles. *)
Theorem read_roles_falsy_account_id (db : Database) :
  read_roles db (Some 0) = select_role_names db ∧
  read_roles db None = select_role_names db ∧
  select_role_names db = Role.name <$> role db.
Proof. repeat split. Qed.

(** C6 as stated fails on the audit entry: granting role 2 to account 1 in
    a database that has both but not the pair inserts the assignment row and
    leaves the audit table empty. A grant for an account that does not exist
    is refused by the foreign key and inserts nothing. *)
Lemma grant_records_no_audit_entry :
  let db := {| role := [ {| Role.id := Some 1; Role.name := "Admin";
                            Role.description := None |};
                         {| Role.id := Some 2; Role.name := "User";
                            Role.description := None |} ];
               account := [ {| Account.id := Some 1; Account.username := "jdoe";
                               Account.full_name := None;
                               Account.password := None;
                               Account.title := None;
                               Account.is_domain_user := Some true;
                               Account.is_super_admin := None |} ];
               role_permission := [];
               log_role_permission := [] |} in
  select_role_permission db 1 2 = [] ∧
  (ensure_user_has_role db 1 2 "jdoe").1
    = inr "Role successfully assigned to user 'jdoe'." ∧
  role_permission (ensure_user_has_role db 1 2 "jdoe").2
    = [ {| RolePermission.id := Some 1; RolePermission.role_id := 2;
           RolePermission.account_id := 1 |} ] ∧
  log_role_permission (ensure_user_has_role db 1 2 "jdoe").2 = [] ∧
  ensure_user_has_role db 7 2 "ghost" = (inl IntegrityError, db).
Proof. repeat split. Qed.

Lemma grant_is_idempotent_witness :
  let db := {| role := [ {| Role.id := Some 2; Role.name := "User";
                            Role.description := None |} ];
               account := [ {| Account.id := Some 1; Account.username := "jdoe";
                               Account.full_name := None;
                               Account.password := None;
                               Account.title := None;
                               Account.is_domain_user := Some true;
                               Account.is_super_admin := None |} ];
               role_permission := [];
               log_role_permission := [] |} in
  ∃ (row : RolePermission.t) (db' : Database),
    ensure_user_has_role db 1 2 "jdoe"
      = (inr "Role successfully assigned to user 'jdoe'.", db') ∧
    select_role_permission db' 1 2 = [row] ∧
    ensure_user_has_role db' 1 2 "jdoe"
      = (inr "Role already assigned to user 'jdoe'.", db') ∧
    log_role_permission db' = [].
Proof.
  intros db.
  destruct (grant_is_idempotent db 1 2 "jdoe") as (Hlog & _ & _ & Hnew).
  destruct (Hnew eq_refl eq_refl)
    as (row & db' & _ & _ & H1 & _ & _ & _ & Hsel & H2).
  exists row, db'. split; [exact H1|]. split; [exact Hsel|].
  split; [exact H2|]. rewrite H1 in Hlog. exact Hlog.
Defined.

End LedgerSpec.

(** * Further properties *)

(** ** [app.py]: verification, login and the protected pages *)

Module AppMore.
Import App.

Section WithConfig.

Variable SECRET_KEY : string.
Variable SECURE_COOKIE : bool.

(** [verify_jwt_token] raises its maximum-lifetime exception inside its own
    [try], where [except Exception] replaces it: the caller only ever sees
    the expired answer or the credentials answer, and a correctly signed,
    unexpired token whose [max_exp] has passed gets the credentials one. *)
Theorem verify_never_reports_max_lifetime (now : Z) (tok : token) :
  (∀ e : exn,
     verify_jwt_token SECRET_KEY now tok = inl e →
     e = token_expired_exception ∨ e = credentials_exception) ∧
  (∀ (p : payload) (max_exp : Z),
     jwt_decode true now tok SECRET_KEY = inr p →
     is_None (p !! "sub") = false →
     p !! "max_exp" ≫= as_number = Some max_exp →
     max_exp < now →
     verify_jwt_token SECRET_KEY now tok = inl credentials_exception).
Proof.
  unfold verify_jwt_token, try_except. split.
  - intros e. destruct (bind _ _) as [e0|u]; [|discriminate].
    destruct e0; intros [= <-]; auto.
  - intros p max_exp Hd Hsub Hnum Hlt. rewrite Hd. cbn [bind].
    rewrite Hsub. destruct (p !! "max_exp") as [v|] eqn:Ev; [|discriminate].
    cbn [orb is_None]. unfold now_gt. rewrite Hnum.
    destruct v; try discriminate; cbn [bind ret];
      (destruct (Z.ltb_spec max_exp now); [reflexivity|lia]).
Qed.

(** A well-formed, correctly signed token whose [exp] has passed gets the
    expired answer, whatever else it holds. *)
Theorem verify_expired (now : Z) (tok : token) (p : payload) (exp : Z) :
  jwt_decode false now tok SECRET_KEY = inr p →
  p !! "exp" ≫= as_number = Some exp →
  exp < now →
  verify_jwt_token SECRET_KEY now tok = inl token_expired_exception.
Proof.
  intros Hd Hexp Hlt. unfold verify_jwt_token.
  rewrite (jwt_decode_with_exp _ _ _ _ Hd). unfold validate_exp.
  destruct (p !! "exp") as [v|]; [|discriminate]. cbn in Hexp. rewrite Hexp.
  destruct (Z.ltb_spec exp now); [reflexivity|lia].
Qed.

Lemma UserPayload_of_strings (p : payload) (user : UserPayload) :
  UserPayload_of p = inr user →
  p !! "username" = Some (VStr (username user)) ∧
  p !! "fullname" = Some (VStr (fullname user)) ∧
  p !! "title" = Some (VStr (title user)).
Proof.
  unfold UserPayload_of, field_int, field_str, field_int_list.
  destruct (p !! "userId") as [[ | |i| | ]|]; try discriminate. cbn [bind ret].
  destruct (p !! "username") as [[ | | |u| ]|]; try discriminate. cbn [bind ret].
  destruct (p !! "fullname") as [[ | | |f| ]|]; try discriminate. cbn [bind ret].
  destruct (p !! "title") as [[ | | |t| ]|]; try discriminate. cbn [bind ret].
  destruct (p !! "email") as [[ | | |e| ]|]; try discriminate. cbn [bind ret].
  destruct (p !! "roles") as [[ | | | |l]|]; try discriminate.
  destruct (int_list l) as [e'|r]; [discriminate|]. cbn [bind ret].
  intros [= <-]. cbn. auto.
Qed.

(** What an accepted token guarantees: its signature verifies under the
    secret, the time is within [max_exp] and within [exp] when that is a
    number, its subject is a string, and the [username], [fullname] and
    [title] of the identity returned are the strings written under these
    keys in its claims (a string field takes a string and nothing else). *)
Theorem verify_sound (now : Z) (tok : token) (user : UserPayload) :
  verify_jwt_token SECRET_KEY now tok = inr user →
  signature_valid SECRET_KEY tok = true ∧
  token_claims tok !! "username" = Some (VStr (username user)) ∧
  token_claims tok !! "fullname" = Some (VStr (fullname user)) ∧
  token_claims tok !! "title" = Some (VStr (title user)) ∧
  (∃ sub : string, token_claims tok !! "sub" = Some (VStr sub)) ∧
  (∃ max_exp : Z,
     token_claims tok !! "max_exp" ≫= as_number = Some max_exp ∧
     now ≤ max_exp) ∧
  (∀ exp : Z, token_claims tok !! "exp" ≫= as_number = Some exp → now ≤ exp).
Proof.
  unfold verify_jwt_token, try_except.
  destruct (jwt_decode true now tok SECRET_KEY) as [e|p] eqn:Hd; cbn [bind].
  { destruct e; discriminate. }
  pose proof (jwt_decode_ok_claims _ _ _ _ _ Hd) as [Hp Hsig]. rewrite Hp.
  destruct (is_None (p !! "sub") || is_None (p !! "max_exp")) eqn:Hnone;
    [discriminate|].
  apply orb_false_elim in Hnone as [Hsub Hmax].
  unfold now_gt.
  destruct (p !! "max_exp" ≫= as_number) as [m|] eqn:Hm; cbn [bind ret raise];
    [|discriminate].
  destruct (Z.ltb_spec m now) as [|Hle]; [discriminate|].
  destruct (UserPayload_of p) as [e|u] eqn:Hu; [destruct e; discriminate|].
  intros [= ->]. split; [exact Hsig|].
  destruct (UserPayload_of_strings p user Hu) as (Hun & Hfn & Hti).
  split; [exact Hun|]. split; [exact Hfn|]. split; [exact Hti|].
  destruct tok as [s|claims sig]; [discriminate Hd|]. cbn in Hp. subst claims.
  cbn [jwt_decode] in Hd. cbn [signature_valid] in Hsig. rewrite Hsig in Hd.
  destruct (validate_claims true now p) as [e|[]] eqn:Hv; [discriminate|].
  unfold validate_claims in Hv.
  destruct (validate_iat p) as [e|[]]; [discriminate|]; cbn [bind] in Hv.
  destruct (validate_nbf now p) as [e|[]]; [discriminate|]; cbn [bind] in Hv.
  destruct (validate_exp now p) as [e|[]] eqn:Hexp; [discriminate|];
    cbn [bind] in Hv.
  destruct (validate_aud p) as [e|[]]; [discriminate|]; cbn [bind] in Hv.
  destruct (validate_str "sub" p) as [e|[]] eqn:Hs; [discriminate|].
  split; [|split].
  - unfold validate_str in Hs.
    destruct (p !! "sub") as [[]|]; try discriminate. eauto.
  - exists m. auto.
  - intros exp Hnum. unfold validate_exp in Hexp.
    destruct (p !! "exp") as [v|]; [|discriminate]. cbn in Hnum.
    rewrite Hnum in Hexp.
    destruct (Z.ltb_spec exp now); [discriminate|assumption].
Qed.

(** [attach_token_to_response] either leaves the response as it is or adds
    one cookie, named [COOKIE_NAME], holding the token, [HttpOnly], with
    path ["/"] and a [Max-Age] that is never negative; for a token whose
    signature does not verify it silently writes nothing. *)
Theorem attach_cookie_shape (now : Z) (response : Response) (tok : token) :
  (∀ response' : Response,
     attach_token_to_response SECRET_KEY SECURE_COOKIE now response tok
       = inr response' →
     response' = response ∨
     ∃ c : Cookie,
       response' = set_cookie response c ∧
       cookie_key c = COOKIE_NAME ∧ cookie_value c = tok ∧
       cookie_httponly c = true ∧ cookie_secure c = SECURE_COOKIE ∧
       cookie_samesite c = "lax" ∧ cookie_path c = "/" ∧
       0 ≤ cookie_max_age c) ∧
  (signature_valid SECRET_KEY tok = false →
   attach_token_to_response SECRET_KEY SECURE_COOKIE now response tok
     = inr response).
Proof.
  unfold attach_token_to_response, try_except. split.
  - intros response'.
    destruct (jwt_decode false now tok SECRET_KEY) as [e|p]; cbn [bind].
    { destruct (is_JWTError e); [|discriminate]. intros [= <-]. auto. }
    destruct (truthy (p !! "exp")).
    + destruct (p !! "exp" ≫= as_number) as [exp|]; cbn [bind ret raise];
        [|discriminate].
      intros [= <-]. right. eexists. split; [reflexivity|]. cbn.
      repeat split. lia.
    + cbn [bind ret]. intros [= <-]. right. eexists. split; [reflexivity|].
      cbn. repeat split. unfold hours, ACCESS_TOKEN_EXPIRE_HOURS. lia.
  - intros Hsig. rewrite (jwt_decode_bad_signature _ _ _ _ Hsig). reflexivity.
Qed.

Lemma created_signature_valid (now : Z) (user : UserPayload)
    (ex : option value) :
  signature_valid SECRET_KEY (create_jwt_token SECRET_KEY now user ex) = true.
Proof.
  unfold create_jwt_token, jwt_encode. cbn [signature_valid].
  apply sig_verifies_own.
Qed.

(** The cookie of a fresh token, as [attach_token_to_response] writes it on
    the reading of the clock that made the token. *)
Lemma login_known (now : Z) (username : string) (response : Response)
    (user : UserPayload) :
  users_db !! username = Some user →
  login SECRET_KEY SECURE_COOKIE now username response =
  inr ("Login successful",
       set_cookie response
         {| cookie_key := COOKIE_NAME;
            cookie_value := create_jwt_token SECRET_KEY now user None;
            cookie_httponly := true; cookie_secure := SECURE_COOKIE;
            cookie_samesite := "lax";
            cookie_max_age := hours ACCESS_TOKEN_EXPIRE_HOURS;
            cookie_path := "/" |}).
Proof.
  intros Hu. unfold login. rewrite Hu, AppSpec.attach_created. reflexivity.
Qed.

Lemma current_user_of_issued (now t : Z) (user : UserPayload)
    (request : Request) :
  cookies request !! COOKIE_NAME = Some (create_jwt_token SECRET_KEY now user None) →
  t ≤ now + hours ACCESS_TOKEN_EXPIRE_HOURS →
  get_current_user SECRET_KEY t request = inr user.
Proof.
  intros Hc Ht. unfold get_current_user, cookie_scheme. rewrite Hc.
  change (no_token (Some (create_jwt_token SECRET_KEY now user None)))
    with false. cbn iota.
  apply AppSpec.verify_of_issue_any, Ht.
Qed.

(** [/login]: an unknown username is refused with 401; a known one gets one
    cookie, named [COOKIE_NAME], whose token verifies under the secret and
    whose [Max-Age] lies between [0] and the 24 hours of the token, and a
    request that carries that cookie is authenticated as the stored user at
    any time up to the token's [exp]. *)
Theorem login_then_current_user (now : Z) (username : string)
    (response : Response) :
  (users_db !! username = None →
   login SECRET_KEY SECURE_COOKIE now username response
     = inl (HTTPException 401 "Incorrect username")) ∧
  (∀ user : UserPayload,
     users_db !! username = Some user →
     ∃ c : Cookie,
       login SECRET_KEY SECURE_COOKIE now username response
         = inr ("Login successful", set_cookie response c) ∧
       cookie_key c = COOKIE_NAME ∧
       signature_valid SECRET_KEY (cookie_value c) = true ∧
       0 ≤ cookie_max_age c ≤ hours ACCESS_TOKEN_EXPIRE_HOURS ∧
       ∀ (t : Z) (request : Request),
         cookies request !! COOKIE_NAME = Some (cookie_value c) →
         t ≤ now + hours ACCESS_TOKEN_EXPIRE_HOURS →
         get_current_user SECRET_KEY t request = inr user).
Proof.
  split.
  - intros Hu. unfold login. rewrite Hu. reflexivity.
  - intros user Hu. rewrite (login_known now username response user Hu).
    eexists. split; [reflexivity|]. cbn [cookie_key cookie_max_age cookie_value].
    split; [reflexivity|]. split; [apply created_signature_valid|].
    split; [unfold hours, ACCESS_TOKEN_EXPIRE_HOURS; lia|].
    intros t request. apply current_user_of_issued.
Qed.

(** After [/login], a request carrying the cookie gets the stored user from
    [/protected/page1], and from [/protected/page2] the same user when the
    user holds role 1 and 403 otherwise, at any time up to the token's
    [exp]. *)
Theorem login_then_pages (now t : Z) (username : string) (user : UserPayload)
    (response response' : Response) (message : string) (c : Cookie)
    (request : Request) :
  users_db !! username = Some user →
  login SECRET_KEY SECURE_COOKIE now username response = inr (message, response') →
  head (set_cookies response') = Some c →
  cookies request !! COOKIE_NAME = Some (cookie_value c) →
  t ≤ now + hours ACCESS_TOKEN_EXPIRE_HOURS →
  read_protected_page1 SECRET_KEY t request = inr user ∧
  read_protected_page2 SECRET_KEY t request =
    (if bool_decide (1 ∈ roles user) then inr user
     else inl (HTTPException 403 "Admin role required")).
Proof.
  intros Hu Hl Hhd Hc Ht.
  rewrite (login_known now username response user Hu) in Hl.
  injection Hl as _ <-. cbn in Hhd. injection Hhd as <-. cbn [cookie_value] in Hc.
  unfold read_protected_page1, read_protected_page2, get_current_admin_user.
  rewrite (current_user_of_issued now t user request Hc Ht). cbn [bind].
  split; [reflexivity|].
  destruct (bool_decide (1 ∈ roles user)); reflexivity.
Qed.

(** *** The refresh endpoint *)

(** [/refresh] sets a cookie exactly when it answers [refresh_success = true]:
    a normal answer either has the flag off and the response untouched, or
    has the flag on and one more cookie, named [COOKIE_NAME], whose token
    verifies under the secret and whose [Max-Age] lies between [0] and the
    24 hours of the token. *)
Theorem refresh_cookie_iff_success (now : Z) (request : Request)
    (response response' : Response) (body : RefreshBody) :
  refresh_token SECRET_KEY SECURE_COOKIE now request response
    = inr (body, response') →
  (refresh_success body = false ∧ response' = response) ∨
  (refresh_success body = true ∧
   ∃ c : Cookie, response' = set_cookie response c ∧
                 cookie_key c = COOKIE_NAME ∧
                 signature_valid SECRET_KEY (cookie_value c) = true ∧
                 0 ≤ cookie_max_age c ≤ hours ACCESS_TOKEN_EXPIRE_HOURS).
Proof.
  unfold refresh_token.
  destruct (get_token_data_for_refresh SECRET_KEY now request)
    as [e|[tok p]]; [discriminate|]. cbn [bind].
  destruct (getitem p "sub") as [e|vs]; [discriminate|]. cbn [bind].
  destruct (getitem p "max_exp") as [e|vm]; [discriminate|]. cbn [bind].
  destruct (getitem p "iat") as [e|vi]; [discriminate|]. cbn [bind].
  destruct (now_gt now (Some vm)) as [e|[]]; cbn [bind]; try discriminate.
  destruct (as_number vi) as [iat|]; cbn [bind ret raise]; [|discriminate].
  destruct (now <? iat + hours REFRESH_INTERVAL_HOURS).
  { intros [= <- <-]. left. auto. }
  match goal with
  | |- bind ?m _ = _ → _ => destruct m as [e|[]]; cbn [bind]; [discriminate|]
  end.
  destruct (users_db_get vs) as [e|[user|]]; cbn [bind raise];
    try discriminate.
  rewrite AppSpec.attach_created. cbn [bind ret].
  intros [= <- <-]. right. split; [reflexivity|].
  eexists. split; [reflexivity|]. cbn [cookie_key cookie_value cookie_max_age].
  split; [reflexivity|]. split; [apply created_signature_valid|].
  unfold hours, ACCESS_TOKEN_EXPIRE_HOURS. lia.
Qed.

(** The token written by a successful refresh is accepted at once, and the
    identity it carries is the stored user of the old token's subject, not
    what the old token said about the user. *)
Theorem refreshed_token_verifies (now : Z) (tok tok' : token) :
  refresh_step_at SECRET_KEY SECURE_COOKIE now tok tok' →
  ∃ (sub : string) (user : UserPayload),
    token_claims tok !! "sub" = Some (VStr sub) ∧
    users_db !! sub = Some user ∧
    verify_jwt_token SECRET_KEY now tok' = inr user.
Proof.
  intros (request & response & body & response' & Hc & Hr & Hs & Hhd).
  unfold refresh_token in Hr.
  destruct (get_token_data_for_refresh SECRET_KEY now request)
    as [e|[tok0 p]] eqn:Hdep; [discriminate|].
  cbn [bind] in Hr.
  apply AppSpec.token_data_inv in Hdep as (Hc' & Hd & Hsub & Hiat & Hmax).
  rewrite Hc in Hc'. injection Hc' as <-.
  pose proof (jwt_decode_ok_claims _ _ _ _ _ Hd) as [Hp _].
  destruct (AppSpec.truthy_Some _ Hsub) as [vs Es].
  destruct (AppSpec.truthy_Some _ Hiat) as [vi Ei].
  destruct (AppSpec.truthy_Some _ Hmax) as [vm Em].
  unfold getitem in Hr. rewrite Es, Em, Ei in Hr. cbn [bind ret] in Hr.
  destruct (now_gt now (Some vm)) as [e|[]] eqn:Hgt; cbn [bind] in Hr;
    try discriminate.
  destruct (as_number vi) as [iat|]; cbn [bind ret raise] in Hr; [|discriminate].
  destruct (now <? iat + hours REFRESH_INTERVAL_HOURS).
  { injection Hr as <- _. discriminate. }
  match type of Hr with
  | bind ?m _ = _ => destruct m as [e|[]]; cbn [bind] in Hr; [discriminate|]
  end.
  destruct vs as [ | | |sub| ]; cbn [users_db_get bind ret raise] in Hr;
    try discriminate.
  destruct (users_db !! sub) as [user|] eqn:Hu; [|discriminate].
  rewrite AppSpec.attach_created in Hr. cbn [bind ret] in Hr.
  injection Hr as _ <-. cbn in Hhd. injection Hhd as <-.
  exists sub, user. rewrite Hp. split; [exact Es|]. split; [exact Hu|].
  (* the new token at the time it was made *)
  unfold verify_jwt_token.
  rewrite (AppSpec.decode_created SECRET_KEY true now now user (Some vm))
    by (intros _; unfold hours, ACCESS_TOKEN_EXPIRE_HOURS; lia).
  destruct (AppSpec.create_claims SECRET_KEY now user (Some vm))
    as (Hsub' & _ & _ & Hmax' & _).
  cbn [bind]. rewrite Hsub', Hmax'.
  assert (Hvm : is_None (Some vm) = false).
  { rewrite Em in Hmax. destruct vm; try reflexivity. discriminate Hmax. }
  rewrite Hvm, Hgt. cbn [is_None orb bind].
  rewrite AppSpec.UserPayload_of_created. reflexivity.
Qed.

(** [/refresh] without a usable cookie is refused as a missing token, and a
    correctly signed token is refused as an invalid structure when ["sub"],
    ["iat"] or ["max_exp"] is absent or falsy: an [iat] of [0] counts as
    absent. *)
Theorem refresh_structure_errors (now : Z) (request : Request)
    (response : Response) :
  (no_token (cookies request !! COOKIE_NAME) = true →
   refresh_token SECRET_KEY SECURE_COOKIE now request response
     = inl (HTTPException 401 "Missing token cookie for refresh")) ∧
  (∀ (tok : token) (p : payload),
     cookies request !! COOKIE_NAME = Some tok →
     jwt_decode false now tok SECRET_KEY = inr p →
     truthy (p !! "sub") && truthy (p !! "iat") && truthy (p !! "max_exp")
       = false →
     refresh_token SECRET_KEY SECURE_COOKIE now request response
       = inl (HTTPException 401 "Invalid token structure for refresh")).
Proof.
  unfold refresh_token, get_token_data_for_refresh. split.
  - intros ->. reflexivity.
  - intros tok p Hc Hd Hfalsy.
    rewrite Hc, (AppSpec.decode_ok_has_token _ _ _ _ _ Hd), Hd.
    cbn [try_except bind].
    destruct (truthy (p !! "sub")), (truthy (p !! "iat")),
      (truthy (p !! "max_exp")); try discriminate Hfalsy; reflexivity.
Qed.

Lemma number_truthy (v : option value) (n : Z) :
  v ≫= as_number = Some n → n ≠ 0 → truthy v = true.
Proof.
  destruct v as [[ | b | m | | ]|]; try discriminate; cbn; intros [= <-] Hn.
  - destruct b; [reflexivity|congruence].
  - destruct (Z.eqb_spec m 0); [congruence|reflexivity].
Qed.

(** The main refresh path: a well-formed, correctly signed token whose [exp]
    has passed, still within [max_exp] and at least the refresh interval
    after [iat], is renewed for the stored user named by ["sub"], whatever
    identity claims it carries; the new token is made now with the old
    [max_exp] and written in one cookie whose [Max-Age] lies between [0] and
    the 24 hours of the token. When the store no longer has that user the
    answer is 500. *)
Theorem refresh_of_expired_token (now : Z) (request : Request)
    (response : Response) (tok : token) (p : payload)
    (sub : string) (max_exp_ts : value) (max_exp iat exp : Z) :
  cookies request !! COOKIE_NAME = Some tok →
  jwt_decode false now tok SECRET_KEY = inr p →
  p !! "sub" = Some (VStr sub) → sub ≠ "" →
  p !! "max_exp" = Some max_exp_ts →
  as_number max_exp_ts = Some max_exp → max_exp ≠ 0 →
  p !! "iat" ≫= as_number = Some iat → iat ≠ 0 →
  p !! "exp" ≫= as_number = Some exp →
  exp < now → now ≤ max_exp → iat + hours REFRESH_INTERVAL_HOURS ≤ now →
  match users_db !! sub with
  | None =>
      refresh_token SECRET_KEY SECURE_COOKIE now request response
        = inl (HTTPException 500 "Internal inconsistency")
  | Some user =>
      ∃ c : Cookie,
        refresh_token SECRET_KEY SECURE_COOKIE now request response
          = inr ({| message := "Token refreshed successfully";
                    refresh_success := true; next_refresh_allowed_at := None |},
                 set_cookie response c) ∧
        cookie_key c = COOKIE_NAME ∧
        cookie_value c = create_jwt_token SECRET_KEY now user (Some max_exp_ts) ∧
        cookie_httponly c = true ∧ cookie_secure c = SECURE_COOKIE ∧
        cookie_samesite c = "lax" ∧ cookie_path c = "/" ∧
        0 ≤ cookie_max_age c ≤ hours ACCESS_TOKEN_EXPIRE_HOURS
  end.
Proof.
  intros Hc Hd Es Hne Em Hnum Hm0 Hiat Hi0 Hexp Hexpired Hle Hint.
  assert (Hsub : truthy (p !! "sub") = true).
  { rewrite Es. cbn. destruct (String.eqb_spec sub ""); [contradiction|reflexivity]. }
  assert (Hmax : truthy (p !! "max_exp") = true).
  { apply (number_truthy _ max_exp); [rewrite Em; exact Hnum|exact Hm0]. }
  pose proof (number_truthy _ _ Hiat Hi0) as Hiatt.
  unfold refresh_token.
  rewrite (AppSpec.token_data_ok _ _ _ _ _ Hc Hd Hsub Hiatt Hmax). cbn [bind].
  destruct (p !! "iat") as [vi|] eqn:Ei; [|discriminate Hiat]. cbn in Hiat.
  unfold getitem. rewrite Es, Em, Ei. cbn [bind ret].
  unfold now_gt. cbn [mbind option_bind]. rewrite Hnum. cbn [bind ret].
  destruct (Z.ltb_spec max_exp now); [lia|].
  rewrite Hiat. cbn [bind ret].
  destruct (Z.ltb_spec now (iat + hours REFRESH_INTERVAL_HOURS)); [lia|].
  assert (Hv : verify_jwt_token SECRET_KEY now tok = inl token_expired_exception).
  { unfold verify_jwt_token.
    rewrite (jwt_decode_with_exp _ _ _ _ Hd). unfold validate_exp.
    destruct (p !! "exp") as [v|]; [|discriminate]. cbn in Hexp. rewrite Hexp.
    destruct (Z.ltb_spec exp now); [reflexivity|lia]. }
  rewrite Hv. cbn [users_db_get bind ret].
  change (bind _ ?k) with (k ()). cbv beta.
  destruct (users_db !! sub) as [user|]; [|reflexivity].
  rewrite AppSpec.attach_created. cbn [bind ret].
  eexists. split; [reflexivity|]. cbn.
  repeat (split; [reflexivity|]). unfold hours, ACCESS_TOKEN_EXPIRE_HOURS. lia.
Qed.

End WithConfig.

(** An unexpired token whose [max_exp] lies in the past. *)
Lemma verify_never_reports_max_lifetime_witness :
  verify_jwt_token "dev-key" 1700000000
    (create_jwt_token "dev-key" 1700000000 admin_user (Some (VNum 1699999000)))
  = inl credentials_exception.
Proof.
  set (tok := create_jwt_token _ _ _ _).
  assert (Hd : jwt_decode true 1700000000 tok "dev-key" = inr (token_claims tok))
    by reflexivity.
  assert (Hs : is_None (token_claims tok !! "sub") = false)
    by reflexivity.
  assert (Hm : token_claims tok !! "max_exp" ≫= as_number = Some 1699999000)
    by reflexivity.
  assert (Hlt : 1699999000 < 1700000000) by lia.
  exact (proj2 (verify_never_reports_max_lifetime "dev-key" 1700000000 tok)
           (token_claims tok) 1699999000 Hd Hs Hm Hlt).
Defined.

Lemma verify_expired_witness :
  verify_jwt_token "dev-key" 1700090000
    (create_jwt_token "dev-key" 1700000000 admin_user None)
  = inl token_expired_exception.
Proof.
  set (tok := create_jwt_token _ _ _ _).
  assert (Hd : jwt_decode false 1700090000 tok "dev-key" = inr (token_claims tok))
    by reflexivity.
  assert (He : token_claims tok !! "exp" ≫= as_number = Some 1700086400)
    by reflexivity.
  assert (Hlt : 1700086400 < 1700090000) by lia.
  exact (verify_expired "dev-key" 1700090000 tok (token_claims tok) 1700086400
           Hd He Hlt).
Defined.

Lemma verify_sound_witness :
  let tok := create_jwt_token "dev-key" 1700000000 regular_user None in
  signature_valid "dev-key" tok = true ∧
  (∀ exp : Z, token_claims tok !! "exp" ≫= as_number = Some exp →
     1700000060 ≤ exp).
Proof.
  intros tok.
  assert (Hv : verify_jwt_token "dev-key" 1700000060 tok = inr regular_user)
    by reflexivity.
  destruct (verify_sound "dev-key" 1700000060 tok regular_user Hv)
    as (Hsig & _ & _ & _ & _ & _ & Hexp).
  split; [exact Hsig|exact Hexp].
Defined.

(** A cookie value that is not a token: nothing is written. *)
Lemma attach_cookie_shape_witness :
  attach_token_to_response "dev-key" true 1700000000 {| set_cookies := [] |}
    (Garbage "not.a.token") = inr {| set_cookies := [] |}.
Proof.
  exact (proj2 (attach_cookie_shape "dev-key" true 1700000000
                  {| set_cookies := [] |} (Garbage "not.a.token")) eq_refl).
Defined.

Lemma login_then_current_user_witness :
  ∃ c : Cookie,
    login "dev-key" true 1700000000 "admin_user" {| set_cookies := [] |}
      = inr ("Login successful", {| set_cookies := [c] |}) ∧
    get_current_user "dev-key" 1700003600
      {| cookies := {[COOKIE_NAME := cookie_value c]} |} = inr admin_user.
Proof.
  destruct (proj2 (login_then_current_user "dev-key" true 1700000000
                     "admin_user" {| set_cookies := [] |}) admin_user eq_refl)
    as (c & Hl & _ & _ & _ & Hcur).
  exists c. split; [exact Hl|].
  apply Hcur; [apply lookup_singleton_eq|vm_compute; discriminate].
Defined.

(** The regular user is let into page 1 and kept out of page 2. *)
Lemma login_then_pages_witness :
  let tok := create_jwt_token "dev-key" 1700000000 regular_user None in
  let request := {| cookies := {[COOKIE_NAME := tok]} |} in
  read_protected_page1 "dev-key" 1700003600 request = inr regular_user ∧
  read_protected_page2 "dev-key" 1700003600 request
    = inl (HTTPException 403 "Admin role required").
Proof.
  intros tok request.
  set (c := {| cookie_key := COOKIE_NAME; cookie_value := tok;
               cookie_httponly := true; cookie_secure := true;
               cookie_samesite := "lax"; cookie_max_age := 86400;
               cookie_path := "/" |}).
  assert (Hl : login "dev-key" true 1700000000 "regular_user"
                 {| set_cookies := [] |}
               = inr ("Login successful", {| set_cookies := [c] |}))
    by reflexivity.
  assert (Ht : 1700003600 ≤ 1700000000 + hours ACCESS_TOKEN_EXPIRE_HOURS)
    by (vm_compute; discriminate).
  exact (login_then_pages "dev-key" true 1700000000 1700003600 "regular_user"
           regular_user _ _ _ c request eq_refl Hl eq_refl eq_refl Ht).
Defined.

(** A refresh two minutes after issuance: flag off, nothing written. *)
Lemma refresh_cookie_iff_success_witness :
  let tok := create_jwt_token "dev-key" 1700000000 admin_user None in
  let body := {| message := "Refresh interval not met, try again later.";
                 refresh_success := false;
                 next_refresh_allowed_at := Some 1700003600 |} in
  refresh_token "dev-key" true 1700000120
    {| cookies := {[COOKIE_NAME := tok]} |} {| set_cookies := [] |}
    = inr (body, {| set_cookies := [] |}) ∧
  ((refresh_success body = false ∧
    {| set_cookies := [] |} = {| set_cookies := [] |}) ∨
   (refresh_success body = true ∧
    ∃ c : Cookie,
      {| set_cookies := [] |} = set_cookie {| set_cookies := [] |} c ∧
      cookie_key c = COOKIE_NAME ∧
      signature_valid "dev-key" (cookie_value c) = true ∧
      0 ≤ cookie_max_age c ≤ hours ACCESS_TOKEN_EXPIRE_HOURS)).
Proof.
  intros tok body.
  assert (Hr : refresh_token "dev-key" true 1700000120
                 {| cookies := {[COOKIE_NAME := tok]} |} {| set_cookies := [] |}
               = inr (body, {| set_cookies := [] |})) by reflexivity.
  split; [exact Hr|].
  exact (refresh_cookie_iff_success "dev-key" true 1700000120 _ _ _ _ Hr).
Defined.

(** The refresh of the first token six and a half days after issuance. *)
Lemma refreshed_token_verifies_witness :
  let tok' := create_jwt_token "dev-key" 1700561600 admin_user
                (Some (VNum 1700604800)) in
  ∃ user : UserPayload,
    users_db !! "admin_user" = Some user ∧
    verify_jwt_token "dev-key" 1700561600 tok' = inr user.
Proof.
  intros tok'.
  set (tok := create_jwt_token "dev-key" 1700000000 admin_user None).
  assert (Hstep : refresh_step_at "dev-key" true 1700561600 tok tok').
  { exists {| cookies := {[COOKIE_NAME := tok]} |}, {| set_cookies := [] |},
      {| message := "Token refreshed successfully"; refresh_success := true;
         next_refresh_allowed_at := None |},
      {| set_cookies :=
           [{| cookie_key := COOKIE_NAME; cookie_value := tok';
               cookie_httponly := true; cookie_secure := true;
               cookie_samesite := "lax"; cookie_max_age := 86400;
               cookie_path := "/" |}] |}.
    split; [reflexivity|]. split; [reflexivity|].
    split; reflexivity. }
  destruct (refreshed_token_verifies "dev-key" true 1700561600 tok tok' Hstep)
    as (sub & user & Hsub & Hu & Hv).
  exists user. split; [|exact Hv].
  assert (Hs' : token_claims tok !! "sub" = Some (VStr "admin_user"))
    by reflexivity.
  rewrite Hs' in Hsub. injection Hsub as <-. exact Hu.
Defined.

(** A token issued at time 0 has [iat = 0] and is never refreshed. *)
Lemma refresh_structure_errors_witness :
  let tok := create_jwt_token "dev-key" 0 admin_user None in
  refresh_token "dev-key" true 7200
    {| cookies := {[COOKIE_NAME := tok]} |} {| set_cookies := [] |}
  = inl (HTTPException 401 "Invalid token structure for refresh").
Proof.
  intros tok.
  assert (Hc : cookies {| cookies := {[COOKIE_NAME := tok]} |} !! COOKIE_NAME
               = Some tok) by apply lookup_singleton_eq.
  assert (Hd : jwt_decode false 7200 tok "dev-key" = inr (token_claims tok))
    by reflexivity.
  assert (Hf : truthy (token_claims tok !! "sub")
               && truthy (token_claims tok !! "iat")
               && truthy (token_claims tok !! "max_exp") = false)
    by reflexivity.
  exact (proj2 (refresh_structure_errors "dev-key" true 7200
                  {| cookies := {[COOKIE_NAME := tok]} |} {| set_cookies := [] |})
           tok (token_claims tok) Hc Hd Hf).
Defined.

(** An expired token whose identity claims were never there. *)
Lemma refresh_of_expired_token_witness :
  let p : payload :=
    <["sub" := VStr "regular_user"]> (<["iat" := VNum 1700000000]>
    (<["exp" := VNum 1700086400]> {["max_exp" := VNum 1700604800]})) in
  let tok := jwt_encode p "dev-key" in
  ∃ c : Cookie,
    refresh_token "dev-key" true 1700090000
      {| cookies := {[COOKIE_NAME := tok]} |} {| set_cookies := [] |}
    = inr ({| message := "Token refreshed successfully";
              refresh_success := true; next_refresh_allowed_at := None |},
           {| set_cookies := [c] |}) ∧
    cookie_value c = create_jwt_token "dev-key" 1700090000 regular_user
                       (Some (VNum 1700604800)) ∧
    0 ≤ cookie_max_age c ≤ hours ACCESS_TOKEN_EXPIRE_HOURS.
Proof.
  intros p tok.
  assert (Hd : jwt_decode false 1700090000 tok "dev-key" = inr p)
    by reflexivity.
  assert (Hc : cookies {| cookies := {[COOKIE_NAME := tok]} |} !! COOKIE_NAME
               = Some tok) by apply lookup_singleton_eq.
  assert (Hs : p !! "sub" = Some (VStr "regular_user")) by reflexivity.
  assert (Hm : p !! "max_exp" = Some (VNum 1700604800)) by reflexivity.
  assert (Hi : p !! "iat" ≫= as_number = Some 1700000000) by reflexivity.
  assert (He : p !! "exp" ≫= as_number = Some 1700086400) by reflexivity.
  assert (Hint : 1700000000 + hours REFRESH_INTERVAL_HOURS ≤ 1700090000)
    by (vm_compute; discriminate).
  pose proof (refresh_of_expired_token "dev-key" true 1700090000
                {| cookies := {[COOKIE_NAME := tok]} |} {| set_cookies := [] |}
                tok p "regular_user" (VNum 1700604800) 1700604800 1700000000
                1700086400 Hc Hd Hs ltac:(discriminate) Hm eq_refl
                ltac:(discriminate) Hi ltac:(discriminate) He
                ltac:(lia) ltac:(lia) Hint) as H.
  assert (Hu : users_db !! "regular_user" = Some regular_user) by reflexivity.
  rewrite Hu in H.
  destruct H as (c & Hr & _ & Hval & _ & _ & _ & _ & Hage).
  exists c. split; [exact Hr|]. split; [exact Hval|exact Hage].
Defined.

End AppMore.

(** ** [middleware.py]: when the middleware renews *)

Module MiddlewareMore.
Import Middleware.

Section WithConfig.

Variable SECRET_KEY : string.

Lemma dispatch_with_token (now : Z) (request : Request) (tok : token)
    (p : payload) :
  cookies request !! "access_token" = Some tok →
  jwt_decode true now tok SECRET_KEY = inr p →
  dispatch SECRET_KEY now request =
  match p !! "exp" with
  | None => inl (KeyError "exp")
  | Some v =>
      match as_number v with
      | None => inl TypeError
      | Some exp =>
          if exp - now <=? minutes TOKEN_RENEW_THRESHOLD_MINUTES
          then inr (CallNext (Some
                 {| cookie_key := "access_token";
                    cookie_value :=
                      jwt_encode
                        (<["exp" := VNum (now + minutes ACCESS_TOKEN_EXPIRE_MINUTES)]> p)
                        SECRET_KEY;
                    cookie_httponly := true; cookie_secure := true;
                    cookie_samesite := "Lax";
                    cookie_max_age := ACCESS_TOKEN_EXPIRE_MINUTES * 60;
                    cookie_path := "/" |}))
          else inr (CallNext None)
      end
  end.
Proof.
  intros Hc Hd. unfold dispatch. rewrite Hc.
  assert (Hnt : no_token (Some tok) = false)
    by (destruct tok; [discriminate Hd|reflexivity]).
  rewrite Hnt, Hd. cbn [try_except bind]. unfold getitem, fromtimestamp.
  destruct (p !! "exp") as [v|]; [|reflexivity]. cbn [bind ret].
  destruct (as_number v) as [exp|]; [|reflexivity]. cbn [bind ret].
  destruct (exp - now <=? minutes TOKEN_RENEW_THRESHOLD_MINUTES); reflexivity.
Qed.

(** A valid token with more than the renewal threshold left, its [exp]
    being a time that a [datetime] can hold, is passed to the handler and no
    cookie is set. *)
Theorem no_renewal_before_threshold (now : Z) (request : Request) (tok : token)
    (p : payload) (exp : Z) :
  cookies request !! "access_token" = Some tok →
  jwt_decode true now tok SECRET_KEY = inr p →
  p !! "exp" ≫= as_number = Some exp →
  datetime_range exp →
  minutes TOKEN_RENEW_THRESHOLD_MINUTES < exp - now →
  dispatch SECRET_KEY now request = inr (CallNext None).
Proof.
  intros Hc Hd Hexp _ Hgt. rewrite (dispatch_with_token _ _ _ _ Hc Hd).
  destruct (p !! "exp") as [v|]; [|discriminate]. cbn in Hexp. rewrite Hexp.
  destruct (Z.leb_spec (exp - now) (minutes TOKEN_RENEW_THRESHOLD_MINUTES));
    [lia|reflexivity].
Qed.

(** A correctly signed token that passes validation but has no ["exp"] claim
    makes the middleware fail with an unhandled [KeyError]: the request
    reaches neither the handler nor a 401. *)
Theorem dispatch_without_exp (now : Z) (request : Request) (tok : token)
    (p : payload) :
  cookies request !! "access_token" = Some tok →
  jwt_decode true now tok SECRET_KEY = inr p →
  p !! "exp" = None →
  dispatch SECRET_KEY now request = inl (KeyError "exp").
Proof.
  intros Hc Hd Hnone. rewrite (dispatch_with_token _ _ _ _ Hc Hd), Hnone.
  reflexivity.
Qed.

Lemma decode_expired_inv (now : Z) (tok : token) :
  jwt_decode true now tok SECRET_KEY = inl ExpiredSignatureError →
  signature_valid SECRET_KEY tok = true ∧
  ∃ exp : Z, token_claims tok !! "exp" ≫= as_number = Some exp ∧ exp < now.
Proof.
  destruct tok as [s|claims sig]; cbn [jwt_decode signature_valid token_claims];
    [discriminate|].
  destruct (sig_verifies SECRET_KEY claims sig); [|discriminate].
  intros H. split; [reflexivity|].
  unfold validate_claims in H.
  assert (Hiat : ∀ e, validate_iat claims = inl e → e = JWTClaimsError).
  { unfold validate_iat. intros e.
    destruct (claims !! "iat") as [v|]; [|discriminate].
    destruct (as_number v); [discriminate|]. intros [= <-]. reflexivity. }
  assert (Hnbf : ∀ e, validate_nbf now claims = inl e → e = JWTClaimsError).
  { unfold validate_nbf. intros e.
    destruct (claims !! "nbf") as [v|]; [|discriminate].
    destruct (as_number v) as [nbf|]; [|intros [= <-]; reflexivity].
    destruct (now <? nbf); [|discriminate]. intros [= <-]. reflexivity. }
  destruct (validate_iat claims) as [e|[]];
    [specialize (Hiat e eq_refl); subst e; discriminate H|]. cbn [bind] in H.
  destruct (validate_nbf now claims) as [e|[]];
    [specialize (Hnbf e eq_refl); subst e; discriminate H|]. cbn [bind] in H.
  unfold validate_exp in H.
  destruct (claims !! "exp") as [v|].
  - cbn. destruct (as_number v) as [exp|].
    + destruct (Z.ltb_spec exp now); [eauto|].
      exfalso. revert H. cbn [bind ret].
      unfold validate_aud, validate_str, validate_at_hash.
      repeat match goal with
             | |- context [match ?x with _ => _ end] => destruct x
             end; discriminate.
    + discriminate H.
  - exfalso. revert H. cbn [bind ret].
    unfold validate_aud, validate_str, validate_at_hash.
    repeat match goal with
           | |- context [match ?x with _ => _ end] => destruct x
           end; discriminate.
Qed.

(** The middleware answers by itself only with 401, and only to a token
    whose signature verifies and which has an ["exp"] claim; where that
    claim is a number it is strictly before the current time. A request
    without a token, with a malformed token, with a forged one or with one
    that has no ["exp"] is never answered by the middleware. *)
Theorem middleware_401_only_for_expired (now : Z) (request : Request)
    (status_code : Z) (detail : string) :
  dispatch SECRET_KEY now request = inr (JSONResponse status_code detail) →
  status_code = 401 ∧ detail = "Token expired. Please log in again." ∧
  ∃ (tok : token) (v : value),
    cookies request !! "access_token" = Some tok ∧
    signature_valid SECRET_KEY tok = true ∧
    token_claims tok !! "exp" = Some v ∧
    ∀ exp : Z, as_number v = Some exp → exp < now.
Proof.
  unfold dispatch.
  destruct (cookies request !! "access_token") as [tok|]; [|discriminate].
  destruct (no_token (Some tok)); [discriminate|].
  destruct (jwt_decode true now tok SECRET_KEY) as [e|p] eqn:Hd;
    cbn [try_except bind].
  - destruct e; try discriminate. intros [= <- <-]. split; [reflexivity|].
    split; [reflexivity|].
    destruct (decode_expired_inv now tok Hd) as (Hsig & exp & Hexp & Hlt).
    destruct (token_claims tok !! "exp") as [v|] eqn:Ev; [|discriminate Hexp].
    cbn in Hexp. exists tok, v. split; [reflexivity|]. split; [exact Hsig|].
    split; [exact Ev|]. intros exp' Hexp'. congruence.
  - unfold getitem, fromtimestamp.
    destruct (p !! "exp") as [v|]; [|discriminate]. cbn [bind ret].
    destruct (as_number v) as [exp|]; [|discriminate]. cbn [bind ret].
    destruct (exp - now <=? minutes TOKEN_RENEW_THRESHOLD_MINUTES); discriminate.
Qed.

(** Validation of the renewed claims at a later time: only the new [exp]
    matters. *)
Lemma validate_claims_renewed (now t new_exp : Z) (p : payload) :
  validate_claims true now p = inr () →
  now ≤ t →
  validate_claims true t (<["exp" := VNum new_exp]> p) =
  if new_exp <? t then inl ExpiredSignatureError else inr ().
Proof.
  intros Hv Ht. unfold validate_claims in *.
  unfold validate_iat, validate_nbf, validate_exp, validate_aud, validate_str,
    validate_at_hash in *.
  rewrite lookup_insert_eq.
  rewrite !lookup_insert_ne by discriminate.
  destruct (p !! "iat") as [vi|].
  { destruct (as_number vi); [|discriminate Hv]. cbn [bind ret] in *.
    destruct (p !! "nbf") as [vn|].
    - destruct (as_number vn) as [nbf|]; [|discriminate Hv].
      destruct (Z.ltb_spec now nbf); [discriminate Hv|].
      destruct (Z.ltb_spec t nbf); [lia|]. cbn [bind ret as_number] in *.
      destruct (new_exp <? t); [reflexivity|]. cbn [bind ret].
      destruct (p !! "exp") as [ve|].
      + destruct (as_number ve) as [e|]; [|discriminate Hv].
        destruct (e <? now); [discriminate Hv|]. exact Hv.
      + exact Hv.
    - cbn [bind ret as_number] in *.
      destruct (new_exp <? t); [reflexivity|]. cbn [bind ret].
      destruct (p !! "exp") as [ve|].
      + destruct (as_number ve) as [e|]; [|discriminate Hv].
        destruct (e <? now); [discriminate Hv|]. exact Hv.
      + exact Hv. }
  cbn [bind ret] in *.
  destruct (p !! "nbf") as [vn|].
  - destruct (as_number vn) as [nbf|]; [|discriminate Hv].
    destruct (Z.ltb_spec now nbf); [discriminate Hv|].
    destruct (Z.ltb_spec t nbf); [lia|]. cbn [bind ret as_number] in *.
    destruct (new_exp <? t); [reflexivity|]. cbn [bind ret].
    destruct (p !! "exp") as [ve|].
    + destruct (as_number ve) as [e|]; [|discriminate Hv].
      destruct (e <? now); [discriminate Hv|]. exact Hv.
    + exact Hv.
  - cbn [bind ret as_number] in *.
    destruct (new_exp <? t); [reflexivity|]. cbn [bind ret].
    destruct (p !! "exp") as [ve|].
    + destruct (as_number ve) as [e|]; [|discriminate Hv].
      destruct (e <? now); [discriminate Hv|]. exact Hv.
    + exact Hv.
Qed.

(** What becomes of a renewed token. The cookie set by a renewal at [now] is,
    at a later time [t], left alone during the next five minutes, renewed
    again from then until it runs out twenty minutes after [now], and
    answered with 401 afterwards. *)
Theorem renewed_token_lifecycle (now t : Z) (request request' : Request)
    (c : Cookie) :
  dispatch SECRET_KEY now request = inr (CallNext (Some c)) →
  cookies request' !! "access_token" = Some (cookie_value c) →
  now ≤ t →
  (t < now + minutes (ACCESS_TOKEN_EXPIRE_MINUTES - TOKEN_RENEW_THRESHOLD_MINUTES) →
   dispatch SECRET_KEY t request' = inr (CallNext None)) ∧
  (now + minutes (ACCESS_TOKEN_EXPIRE_MINUTES - TOKEN_RENEW_THRESHOLD_MINUTES) ≤ t →
   t ≤ now + minutes ACCESS_TOKEN_EXPIRE_MINUTES →
   ∃ c' : Cookie,
     dispatch SECRET_KEY t request' = inr (CallNext (Some c')) ∧
     token_claims (cookie_value c') !! "exp"
       = Some (VNum (t + minutes ACCESS_TOKEN_EXPIRE_MINUTES))) ∧
  (now + minutes ACCESS_TOKEN_EXPIRE_MINUTES < t →
   dispatch SECRET_KEY t request'
     = inr (JSONResponse 401 "Token expired. Please log in again.")).
Proof.
  intros Hd Hc' Ht.
  (* the renewal at [now] *)
  assert (∃ p, validate_claims true now p = inr () ∧
               cookie_value c =
                 jwt_encode (<["exp" := VNum (now + minutes ACCESS_TOKEN_EXPIRE_MINUTES)]> p)
                            SECRET_KEY) as (p & Hv & Hval).
  { unfold dispatch in Hd.
    destruct (cookies request !! "access_token") as [tok|]; [|discriminate].
    destruct (no_token (Some tok)); [discriminate|].
    destruct tok as [s|claims sig]; [discriminate|]. cbn [jwt_decode] in Hd.
    destruct (sig_verifies SECRET_KEY claims sig); [|discriminate].
    destruct (validate_claims true now claims) as [e|[]] eqn:Hv;
      cbn [try_except bind ret] in Hd; [destruct e; discriminate|].
    unfold getitem, fromtimestamp in Hd.
    destruct (claims !! "exp") as [v|]; [|discriminate]. cbn [bind ret] in Hd.
    destruct (as_number v) as [exp|]; [|discriminate]. cbn [bind ret] in Hd.
    destruct (exp - now <=? minutes TOKEN_RENEW_THRESHOLD_MINUTES);
      [|discriminate].
    injection Hd as <-. exists claims. split; [exact Hv|reflexivity]. }
  set (new_exp := now + minutes ACCESS_TOKEN_EXPIRE_MINUTES) in *.
  set (p' := <["exp" := VNum new_exp]> p) in *.
  pose proof (validate_claims_renewed now t new_exp p Hv Ht) as Hv'.
  fold p' in Hv'.
  assert (Hexp' : p' !! "exp" = Some (VNum new_exp)) by apply lookup_insert_eq.
  unfold dispatch. rewrite Hc', Hval. cbn [jwt_encode no_token jwt_decode].
  rewrite sig_verifies_own, Hv'.
  unfold minutes, ACCESS_TOKEN_EXPIRE_MINUTES, TOKEN_RENEW_THRESHOLD_MINUTES in *.
  split; [|split].
  - intros Hlt. destruct (Z.ltb_spec new_exp t); [lia|].
    cbn [try_except bind ret]. unfold getitem, fromtimestamp.
    rewrite Hexp'. cbn [bind ret as_number].
    destruct (Z.leb_spec (new_exp - t) (15 * 60)); [lia|reflexivity].
  - intros Hge Hle. destruct (Z.ltb_spec new_exp t); [lia|].
    cbn [try_except bind ret]. unfold getitem, fromtimestamp.
    rewrite Hexp'. cbn [bind ret as_number].
    destruct (Z.leb_spec (new_exp - t) (15 * 60)); [|lia].
    eexists. split; [reflexivity|]. cbn [cookie_value jwt_encode token_claims].
    apply lookup_insert_eq.
  - intros Hgt. destruct (Z.ltb_spec new_exp t); [reflexivity|lia].
Qed.

End WithConfig.

(** A token with an hour left. *)
Lemma no_renewal_before_threshold_witness :
  let p : payload := <["sub" := VStr "jdoe"]> {["exp" := VNum 1700003600]} in
  dispatch "dev-key" 1700000000
    {| cookies := {["access_token" := jwt_encode p "dev-key"]} |}
  = inr (CallNext None).
Proof.
  intros p.
  assert (Hlt : minutes TOKEN_RENEW_THRESHOLD_MINUTES < 1700003600 - 1700000000)
    by reflexivity.
  assert (Hrange : datetime_range 1700003600)
    by (unfold datetime_range, MIN_TIMESTAMP, MAX_TIMESTAMP; lia).
  exact (no_renewal_before_threshold "dev-key" 1700000000
           {| cookies := {["access_token" := jwt_encode p "dev-key"]} |}
           (jwt_encode p "dev-key") p 1700003600
           eq_refl eq_refl eq_refl Hrange Hlt).
Defined.

Lemma dispatch_without_exp_witness :
  let p : payload := {["sub" := VStr "jdoe"]} in
  dispatch "dev-key" 1700000000
    {| cookies := {["access_token" := jwt_encode p "dev-key"]} |}
  = inl (KeyError "exp").
Proof.
  intros p.
  exact (dispatch_without_exp "dev-key" 1700000000
           {| cookies := {["access_token" := jwt_encode p "dev-key"]} |}
           (jwt_encode p "dev-key") p eq_refl eq_refl eq_refl).
Defined.

Lemma middleware_401_only_for_expired_witness :
  let p : payload := <["sub" := VStr "jdoe"]> {["exp" := VNum 1700000000]} in
  signature_valid "dev-key" (jwt_encode p "dev-key") = true ∧
  ∃ v : value, p !! "exp" = Some v ∧
               ∀ exp : Z, as_number v = Some exp → exp < 1700000060.
Proof.
  intros p.
  assert (Hd : dispatch "dev-key" 1700000060
                 {| cookies := {["access_token" := jwt_encode p "dev-key"]} |}
               = inr (JSONResponse 401 "Token expired. Please log in again."))
    by reflexivity.
  destruct (middleware_401_only_for_expired "dev-key" 1700000060 _ _ _ Hd)
    as (_ & _ & tok & v & Hc & Hsig & Hv & Hexp).
  assert (tok = jwt_encode p "dev-key") as ->.
  { cbn [cookies] in Hc. rewrite lookup_singleton_eq in Hc.
    injection Hc as <-. reflexivity. }
  split; [exact Hsig|]. exists v. split; [exact Hv|exact Hexp].
Defined.

(** A token with ten minutes left is renewed; the new one is left alone one
    hundred seconds later. *)
Lemma renewed_token_lifecycle_witness :
  let p : payload := <["sub" := VStr "jdoe"]> {["exp" := VNum 1700000600]} in
  let p' : payload := <["exp" := VNum 1700001200]> p in
  dispatch "dev-key" 1700000100
    {| cookies := {["access_token" := jwt_encode p' "dev-key"]} |}
  = inr (CallNext None).
Proof.
  intros p p'.
  set (c := {| cookie_key := "access_token";
               cookie_value := jwt_encode p' "dev-key";
               cookie_httponly := true; cookie_secure := true;
               cookie_samesite := "Lax"; cookie_max_age := 1200;
               cookie_path := "/" |}).
  assert (Hd : dispatch "dev-key" 1700000000
                 {| cookies := {["access_token" := jwt_encode p "dev-key"]} |}
               = inr (CallNext (Some c))) by reflexivity.
  assert (Ht : 1700000000 ≤ 1700000100) by lia.
  refine (proj1 (renewed_token_lifecycle "dev-key" 1700000000 1700000100 _
                   {| cookies := {["access_token" := jwt_encode p' "dev-key"]} |}
                   c Hd eq_refl Ht) _).
  reflexivity.
Defined.

End MiddlewareMore.

(** ** Accounts and the production login *)

Module AccountsMore.
Import Ledger Accounts.

(** *** Tables, keys and list facts *)

Lemma next_id_above (ids : list (option Z)) (i : Z) :
  Some i ∈ ids → i < next_id ids.
Proof.
  unfold next_id. induction ids as [|j ids IH]; intros Hin.
  - by apply not_elem_of_nil in Hin.
  - apply elem_of_cons in Hin as [<-|Hin]; cbn [fold_right default].
    + cbn. lia.
    + specialize (IH Hin). lia.
Qed.

Lemma next_id_positive (ids : list (option Z)) : 0 < next_id ids.
Proof.
  unfold next_id. induction ids as [|j ids IH]; cbn [fold_right]; lia.
Qed.

Lemma update_account_ids (db : Database) (row : Account.t) :
  Account.id <$> account (update_account db row) = Account.id <$> account db.
Proof.
  unfold update_account. cbn [account]. rewrite <- list_fmap_compose.
  apply list_fmap_ext. intros _ a _. cbn.
  destruct (bool_decide_reflect (Account.id a = Account.id row)); congruence.
Qed.

Lemma ensure_tables (db : Database) (account_id role_id : Z) (username : string) :
  let db' := (ensure_user_has_role db account_id role_id username).2 in
  role db' = role db ∧ account db' = account db ∧
  log_role_permission db' = log_role_permission db ∧
  (fk_consistent db → fk_consistent db').
Proof.
  unfold ensure_user_has_role, add_role_permission.
  destruct (scalar_one_or_none _) as [e|[existing|]]; cbn [snd]; try tauto.
  destruct (foreign_keys_ok db _) eqn:Hfk; cbn [snd]; [|tauto].
  split; [reflexivity|]. split; [reflexivity|]. split; [reflexivity|].
  intros Hok rp Hin. cbn [role account role_permission] in Hin |- *.
  apply elem_of_app in Hin as [Hin|Hin]; [exact (Hok rp Hin)|].
  apply list_elem_of_singleton in Hin as ->. cbn.
  unfold foreign_keys_ok in Hfk. cbn in Hfk.
  apply andb_prop in Hfk as [Hr Ha].
  apply existsb_exists in Hr as (r & Hr & Hrid).
  apply existsb_exists in Ha as (a & Ha & Haid).
  apply bool_decide_eq_true_1 in Hrid, Haid.
  split; [exists r|exists a]; (split; [by apply list_elem_of_In|assumption]).
Qed.

Lemma filter_none {A : Type} (f : A → bool) (l : list A) :
  (∀ x, x ∈ l → f x = false) → List.filter f l = [].
Proof.
  induction l as [|a l IH]; intros H; [reflexivity|]. cbn.
  rewrite (H a) by apply list_elem_of_here.
  apply IH. intros x Hx. apply H. by apply list_elem_of_further.
Qed.

Lemma no_assignment_for_next_id (db : Database) (rp : RolePermission.t) :
  fk_consistent db → rp ∈ role_permission db →
  RolePermission.account_id rp ≠ next_id (Account.id <$> account db).
Proof.
  intros Hfk Hin. destruct (Hfk rp Hin) as [_ (a & Ha & Hid)].
  assert (Some (RolePermission.account_id rp) ∈ Account.id <$> account db)
    by (rewrite <- Hid; by apply list_elem_of_fmap_2).
  pose proof (next_id_above _ _ H). lia.
Qed.

Lemma names_of_role (l : list Role.t) (role_id : Z) :
  (l ≫= λ r, if bool_decide (Role.id r = Some role_id) then [Role.name r] else [])
  = Role.name <$> List.filter (λ r, bool_decide (Role.id r = Some role_id)) l.
Proof.
  induction l as [|r l IH]; [reflexivity|]. cbn.
  destruct (bool_decide (Role.id r = Some role_id)); cbn; rewrite IH;
    reflexivity.
Qed.

Lemma update_only_that_row (l : list Account.t) (row : Account.t) :
  Account.id row ∉ Account.id <$> l →
  (λ a, if bool_decide (Account.id a = Account.id row) then row else a) <$> l = l.
Proof.
  induction l as [|a l IH]; intros Hni; [reflexivity|]. cbn.
  rewrite fmap_cons in Hni. apply not_elem_of_cons in Hni as [Hne Hni].
  rewrite bool_decide_eq_false_2 by congruence. f_equal. by apply IH.
Qed.

Lemma select_after_update (p : Account.t → bool) (l : list Account.t)
    (acct row : Account.t) :
  NoDup (Account.id <$> l) →
  List.filter p l = [acct] →
  Account.id row = Account.id acct → p row = true →
  List.filter p
    ((λ a, if bool_decide (Account.id a = Account.id row) then row else a) <$> l)
  = [row].
Proof.
  intros Hnd Hsel Hid Hrow. induction l as [|a l IH]; [discriminate|].
  rewrite fmap_cons in Hnd. apply NoDup_cons in Hnd as [Hni Hnd].
  cbn in Hsel |- *. destruct (p a) eqn:Hpa.
  - injection Hsel as -> Hnil.
    rewrite bool_decide_eq_true_2 by congruence. rewrite Hrow.
    rewrite update_only_that_row by (rewrite Hid; exact Hni).
    rewrite Hnil. reflexivity.
  - assert (Hin : acct ∈ l).
    { apply list_elem_of_In. apply (proj1 (filter_In p acct l)).
      rewrite Hsel. left. reflexivity. }
    assert (Hne : Account.id a ≠ Account.id row).
    { rewrite Hid. intros Heq. apply Hni. rewrite Heq.
      by apply list_elem_of_fmap_2. }
    rewrite bool_decide_eq_false_2 by exact Hne. rewrite Hpa.
    by apply IH.
Qed.

Lemma update_account_twice (db : Database) (row : Account.t) :
  update_account (update_account db row) row = update_account db row.
Proof.
  unfold update_account. cbn [role account role_permission log_role_permission].
  f_equal. rewrite <- list_fmap_compose. apply list_fmap_ext.
  intros _ a _. cbn.
  destruct (bool_decide_reflect (Account.id a = Account.id row)) as [Heq|Hne].
  - rewrite bool_decide_eq_true_2 by reflexivity. reflexivity.
  - rewrite bool_decide_eq_false_2 by exact Hne. reflexivity.
Qed.

Lemma filter_by_id (l : list Account.t) (user_id : Z) :
  NoDup (Account.id <$> l) →
  List.filter (λ a, bool_decide (Account.id a = Some user_id)) l = [] ∨
  ∃ a, List.filter (λ a, bool_decide (Account.id a = Some user_id)) l = [a].
Proof.
  induction l as [|a l IH]; intros Hnd; [by left|].
  rewrite fmap_cons in Hnd. apply NoDup_cons in Hnd as [Hni Hnd]. cbn.
  destruct (bool_decide_reflect (Account.id a = Some user_id)) as [Heq|Hne];
    [|by apply IH].
  right. exists a. f_equal. apply filter_none. intros x Hx.
  apply bool_decide_eq_false_2. intros Hx'. apply Hni. rewrite Heq, <- Hx'.
  by apply list_elem_of_fmap_2.
Qed.

(** With distinct account ids [read_user_by_id] never raises; it returns an
    account exactly when the table has a row with that id, and then that
    row. *)
Theorem read_user_by_id_finds (db : Database) (user_id : Z) :
  account_ids_distinct db →
  ∃ found : option Account.t,
    read_user_by_id db user_id = inr found ∧
    (∀ a : Account.t,
       found = Some a ↔ a ∈ account db ∧ Account.id a = Some user_id).
Proof.
  intros [Hnd _]. unfold read_user_by_id.
  set (p := λ a : Account.t, bool_decide (Account.id a = Some user_id)).
  assert (Hspec : ∀ a, In a (List.filter p (account db))
                       ↔ a ∈ account db ∧ Account.id a = Some user_id).
  { intros a. rewrite filter_In, list_elem_of_In. unfold p.
    rewrite bool_decide_eq_true. reflexivity. }
  destruct (filter_by_id (account db) user_id Hnd) as [Hnil|[a0 Hone]];
    fold p in Hnil || fold p in Hone.
  - rewrite Hnil in *. exists None. split; [reflexivity|].
    intros a. split; [discriminate|]. intros H. apply Hspec in H. destruct H.
  - rewrite Hone in *. exists (Some a0). split; [reflexivity|].
    intros a. rewrite <- Hspec. cbn. split.
    + intros [= ->]. by left.
    + intros [->|[]]. reflexivity.
Qed.

(** The grant refuses without writing: a pair stored more than once makes the
    lookup raise [MultipleResultsFound], and a new pair whose role or account
    does not exist makes the commit raise [IntegrityError]; either way the
    database stays as it was. *)
Theorem grant_failures (db : Database) (account_id role_id : Z)
    (username : string) :
  ((2 ≤ length (select_role_permission db account_id role_id))%nat →
   ensure_user_has_role db account_id role_id username
     = (inl MultipleResultsFound, db)) ∧
  (select_role_permission db account_id role_id = [] →
   foreign_keys_ok db {| RolePermission.id := None;
                         RolePermission.role_id := role_id;
                         RolePermission.account_id := account_id |} = false →
   ensure_user_has_role db account_id role_id username
     = (inl IntegrityError, db)).
Proof.
  unfold ensure_user_has_role, add_role_permission. split.
  - destruct (select_role_permission db account_id role_id) as [|r1 [|r2 rows]];
      cbn [length]; [lia|lia|reflexivity].
  - intros -> Hfk. cbn [scalar_one_or_none ret]. rewrite Hfk. reflexivity.
Qed.

Section WithServices.

Variable same_username : string → string → bool.
Variable accepts_account : Account.t → bool.
Variable checkpw : string → string → bool.
Variable ldap_authenticate : string → string → option DomainUser.t.

#[local] Abbreviation create_or_update_user :=
  (create_or_update_user same_username accepts_account).
#[local] Abbreviation login_for_access_token :=
  (login_for_access_token same_username accepts_account checkpw
     ldap_authenticate).

(** The failures of [create_or_update_user] are never the invalid-credentials
    exception. *)
Lemma create_or_update_user_failure (db db' : Database) (username : string)
    (full_name title : option string) (f : failure) :
  create_or_update_user db username full_name title = (inl f, db') →
  is_InvalidCredentialsException f = false.
Proof.
  unfold Accounts.create_or_update_user.
  destruct (scalar_one_or_none (select_account same_username db username))
    as [e|found] eqn:Hsel.
  { intros [= <- _]. unfold scalar_one_or_none in Hsel.
    destruct (select_account _ _ _) as [|? [|? ?]]; try discriminate.
    injection Hsel as <-. reflexivity. }
  destruct found as [account|];
    (destruct (accepts_account _); [|intros [= <- _]; reflexivity]);
    cbn [Account.id].
  - destruct (Account.id account) as [i|]; [|intros [= <- _]; reflexivity].
    unfold ensure_user_has_role.
    destruct (scalar_one_or_none (select_role_permission _ i 2)) as [e|[x|]] eqn:Hs.
    + intros [= <- _]. unfold scalar_one_or_none in Hs.
      destruct (select_role_permission _ _ _) as [|? [|? ?]]; try discriminate.
      injection Hs as <-. reflexivity.
    + discriminate.
    + unfold add_role_permission. destruct (foreign_keys_ok _ _);
        [discriminate|]. intros [= <- _]. reflexivity.
  - unfold ensure_user_has_role.
    destruct (scalar_one_or_none (select_role_permission _ _ 2)) as [e|[x|]] eqn:Hs.
    + intros [= <- _]. unfold scalar_one_or_none in Hs.
      destruct (select_role_permission _ _ _) as [|? [|? ?]]; try discriminate.
      injection Hs as <-. reflexivity.
    + discriminate.
    + unfold add_role_permission. destruct (foreign_keys_ok _ _);
        [discriminate|]. intros [= <- _]. reflexivity.
Qed.

Lemma validate_failure (db : Database) (username password : string)
    (f : failure) :
  validate_user_name_and_password same_username checkpw db username password
    = inl f →
  is_InvalidCredentialsException f = false.
Proof.
  unfold validate_user_name_and_password.
  destruct (scalar_one_or_none (select_account same_username db username))
    as [e|[account|]] eqn:Hsel; try discriminate.
  - intros [= <-]. unfold scalar_one_or_none in Hsel.
    destruct (select_account _ _ _) as [|? [|? ?]]; try discriminate.
    injection Hsel as <-. reflexivity.
  - destruct (Account.password account); [|intros [= <-]; reflexivity].
    destruct (checkpw _ _); discriminate.
Qed.

(** When the production login answers 401 and when 500. It raises nothing
    but these two; it raises the invalid-credentials 401 exactly when a
    credential is empty, or the local check of ["admin"] finds no account or
    a wrong password, or the directory refuses the user; and a refused login
    leaves the database as it was. *)
Theorem login_401_iff_rejected (db : Database) (form_data : LoginRequest.t) :
  let username := LoginRequest.username form_data in
  let password := LoginRequest.password form_data in
  let rejected :=
    username = "" ∨ password = "" ∨
    (username = "admin" ∧
     validate_user_name_and_password same_username checkpw db username password
       = inr None) ∨
    (username ≠ "admin" ∧ ldap_authenticate username password = None) in
  (∀ e : exn, (login_for_access_token db form_data).1 = inl e →
     e = InvalidCredentialsException ∨ e = InternalServerException) ∧
  ((login_for_access_token db form_data).1 = inl InvalidCredentialsException
   ↔ rejected) ∧
  ((login_for_access_token db form_data).1 = inl InvalidCredentialsException →
   (login_for_access_token db form_data).2 = db).
Proof.
  intros username password rejected. subst rejected.
  unfold Accounts.login_for_access_token. fold username password.
  destruct (String.eqb_spec username "") as [Hu|Hu].
  { cbn. split; [intros e [= <-]; auto|]. split; [|reflexivity]. tauto. }
  destruct (String.eqb_spec password "") as [Hp|Hp].
  { cbn. split; [intros e [= <-]; auto|]. split; [|reflexivity]. tauto. }
  cbn [orb]. destruct (String.eqb_spec username "admin") as [Ha|Ha].
  - unfold authenticate_admin.
    destruct (validate_user_name_and_password _ _ _ _ _) as [f|[user|]] eqn:Hv.
    + rewrite (validate_failure _ _ _ _ Hv). cbn.
      split; [intros e [= <-]; auto|]. split; [|discriminate].
      split; [discriminate|]. intros [?|[?|[[_ ?]|[? _]]]]; congruence.
    + cbn. split; [discriminate|]. split; [|discriminate].
      split; [discriminate|]. intros [?|[?|[[_ ?]|[? _]]]]; congruence.
    + cbn. split; [intros e [= <-]; auto|]. split; [|reflexivity].
      split; [|reflexivity]. intros _. right. right. left. auto.
  - unfold authenticate_ad_and_update, authenticate_and_get_user.
    rewrite (proj2 (String.eqb_neq _ _) Hu), (proj2 (String.eqb_neq _ _) Hp).
    cbn [orb].
    destruct (ldap_authenticate username password) as [wa|] eqn:Hl.
    + destruct (create_or_update_user db (DomainUser.username wa)
                  (DomainUser.fullName wa) (DomainUser.title wa))
        as [[f|user] db'] eqn:Hc.
      * rewrite (create_or_update_user_failure _ _ _ _ _ _ Hc). cbn.
        split; [intros e [= <-]; auto|]. split; [|discriminate].
        split; [discriminate|]. intros [?|[?|[[? _]|[_ ?]]]]; congruence.
      * cbn. split; [discriminate|]. split; [|discriminate].
        split; [discriminate|]. intros [?|[?|[[? _]|[_ ?]]]]; congruence.
    + cbn. split; [intros e [= <-]; auto|]. split; [|reflexivity].
      split; [|reflexivity]. intros _. right. right. right. auto.
Qed.

(** *** The tables under [create_or_update_user] *)

(** The writes keep the keys. [create_or_update_user] never touches the role
    table or the audit table, adds at most one account, keeps the account
    ids distinct, and keeps every assignment row pointing to an existing
    role and account, also when it ends in an exception. *)
Theorem create_or_update_user_keeps_keys (db : Database) (username : string)
    (full_name title : option string) :
  let db' := (create_or_update_user db username full_name title).2 in
  account_ids_distinct db → fk_consistent db →
  role db' = role db ∧
  log_role_permission db' = log_role_permission db ∧
  (length (account db) ≤ length (account db') ≤ S (length (account db)))%nat ∧
  account_ids_distinct db' ∧
  fk_consistent db'.
Proof.
  intros db' [Hnd Hnone] Hfk. subst db'.
  unfold Accounts.create_or_update_user.
  destruct (scalar_one_or_none (select_account same_username db username))
    as [e|found]; cbn [snd].
  { split; [reflexivity|]. split; [reflexivity|]. split; [lia|].
    split; [split; assumption|assumption]. }
  (* the state after the account is written *)
  set (pair := match found with Some _ => _ | None => _ end).
  assert (Hw : role pair.2 = role db ∧
               log_role_permission pair.2 = log_role_permission db ∧
               (length (account db) ≤ length (account pair.2)
                  ≤ S (length (account db)))%nat ∧
               account_ids_distinct pair.2 ∧ fk_consistent pair.2).
  { subst pair. destruct found as [acct|]; cbn [snd].
    - match goal with
      | |- context [update_account db ?r] => set (row := r)
      end.
      split; [reflexivity|]. split; [reflexivity|]. split.
      { unfold update_account. cbn [account]. rewrite length_fmap. lia. }
      split.
      + unfold account_ids_distinct. rewrite update_account_ids. auto.
      + intros rp Hin. destruct (Hfk rp Hin) as [Hr (a & Ha & Haid)].
        split; [exact Hr|].
        assert (Hid : Some (RolePermission.account_id rp)
                      ∈ Account.id <$> Ledger.account (update_account db row))
          by (rewrite update_account_ids, <- Haid; by apply list_elem_of_fmap_2).
        apply list_elem_of_fmap in Hid as (a' & Hid & Ha'). eauto.
    - split; [reflexivity|]. split; [reflexivity|]. split.
      { unfold insert_account. cbn [account]. rewrite length_app. cbn. lia. }
      split.
      + unfold account_ids_distinct, insert_account. cbn [account].
        rewrite fmap_app. cbn. split.
        * apply NoDup_app. split; [exact Hnd|]. split; [|apply NoDup_singleton].
          intros x Hx Hx'. apply list_elem_of_singleton in Hx' as ->.
          apply next_id_above in Hx. lia.
        * intros Hin. apply elem_of_app in Hin as [Hin|Hin]; [auto|].
          apply list_elem_of_singleton in Hin. discriminate.
      + intros rp Hin. destruct (Hfk rp Hin) as [Hr (a & Ha & Haid)].
        split; [exact Hr|]. exists a. split; [|exact Haid].
        unfold insert_account. cbn [account]. apply elem_of_app. auto. }
  destruct pair as [acct written]. cbn [snd] in Hw.
  destruct (accepts_account acct); cbn [snd];
    [|split; [reflexivity|]; split; [reflexivity|]; split; [lia|];
      split; [split; assumption|assumption]].
  destruct (Account.id acct) as [i|]; cbn [snd]; [|exact Hw].
  destruct Hw as (Hr & Hl & Hlen & Hd & Hf).
  destruct (ensure_tables written i 2 username) as (Hr' & Ha' & Hl' & Hf').
  destruct (ensure_user_has_role written i 2 username) as [[e|m] db''];
    cbn [snd] in Hr', Ha', Hl', Hf' |- *; unfold account_ids_distinct;
    rewrite Hr', Ha', Hl';
    (split; [exact Hr|]; split; [exact Hl|]; split; [exact Hlen|];
     split; [exact Hd|exact (Hf' Hf)]).
Qed.

(** *** A first login through the directory *)

(** A first login through the directory. For a user whom the directory
    accepts and who has no account yet, in a database with role 2 whose
    assignment rows all point to existing accounts: the login creates one
    domain account with the directory's name and title and no password,
    grants it role 2 in one new assignment row, and answers with the new id,
    the address [username@andalusiagroup.net] and the names of the roles
    with id 2. *)
Theorem first_directory_login (db : Database) (form_data : LoginRequest.t)
    (windows_account : DomainUser.t) :
  let username := LoginRequest.username form_data in
  let password := LoginRequest.password form_data in
  let new_id := next_id (Account.id <$> account db) in
  let new_account :=
    {| Account.id := Some new_id;
       Account.username := DomainUser.username windows_account;
       Account.full_name := DomainUser.fullName windows_account;
       Account.password := None;
       Account.title := DomainUser.title windows_account;
       Account.is_domain_user := Some true;
       Account.is_super_admin := None |} in
  let new_assignment :=
    {| RolePermission.id :=
         Some (next_id (RolePermission.id <$> role_permission db));
       RolePermission.role_id := 2;
       RolePermission.account_id := new_id |} in
  username ≠ "" → password ≠ "" → username ≠ "admin" →
  ldap_authenticate username password = Some windows_account →
  select_account same_username db (DomainUser.username windows_account) = [] →
  accepts_account new_account = true →
  (∃ r : Role.t, r ∈ role db ∧ Role.id r = Some 2) →
  fk_consistent db →
  login_for_access_token db form_data =
  (inr {| LoginResponse.userId := Some new_id;
          LoginResponse.username := Some (DomainUser.username windows_account);
          LoginResponse.fullName := DomainUser.fullName windows_account;
          LoginResponse.title := DomainUser.title windows_account;
          LoginResponse.email :=
            Some (DomainUser.username windows_account +:+ "@andalusiagroup.net");
          LoginResponse.roles :=
            Some (Role.name <$>
                  List.filter (λ r, bool_decide (Role.id r = Some 2)) (role db)) |},
   {| role := role db;
      account := (account db ++ [new_account])%list;
      role_permission := (role_permission db ++ [new_assignment])%list;
      log_role_permission := log_role_permission db |}).
Proof.
  intros username password new_id new_account new_assignment
    Hu Hp Ha Hldap Hsel Hacc (r2 & Hr2 & Hr2id) Hfk.
  unfold Accounts.login_for_access_token. fold username password.
  rewrite (proj2 (String.eqb_neq _ _) Hu), (proj2 (String.eqb_neq _ _) Hp),
    (proj2 (String.eqb_neq _ _) Ha). cbn [orb].
  unfold authenticate_ad_and_update, authenticate_and_get_user.
  rewrite (proj2 (String.eqb_neq _ _) Hu), (proj2 (String.eqb_neq _ _) Hp).
  cbn [orb]. rewrite Hldap. unfold Accounts.create_or_update_user.
  rewrite Hsel. cbn [scalar_one_or_none ret]. fold new_id. fold new_account.
  rewrite Hacc. cbn [Account.id new_account].
  set (written := insert_account db new_account).
  (* the grant of role 2 *)
  assert (Hnone : select_role_permission written new_id 2 = []).
  { apply filter_none. intros rp Hin. cbn [written insert_account role_permission] in Hin.
    pose proof (no_assignment_for_next_id db rp Hfk Hin) as Hne.
    fold new_id in Hne.
    destruct (Z.eqb_spec (RolePermission.account_id rp) new_id);
      [contradiction|reflexivity]. }
  assert (Hfks : foreign_keys_ok written
                   {| RolePermission.id := None; RolePermission.role_id := 2;
                      RolePermission.account_id := new_id |} = true).
  { unfold foreign_keys_ok. cbn. apply andb_true_intro. split.
    - apply existsb_exists. exists r2. split; [by apply list_elem_of_In|].
      by apply bool_decide_eq_true_2.
    - apply existsb_exists. exists new_account.
      split; [|by apply bool_decide_eq_true_2].
      apply list_elem_of_In, elem_of_app. right. apply list_elem_of_here. }
  unfold ensure_user_has_role, add_role_permission.
  rewrite Hnone. cbn [scalar_one_or_none ret]. rewrite Hfks.
  cbn [written insert_account role account role_permission log_role_permission].
  fold new_assignment. cbn [is_InvalidCredentialsException].
  (* the roles of the answer *)
  f_equal. f_equal. cbn [new_account Account.id Account.username
    Account.full_name Account.title]. f_equal. f_equal.
  unfold get_user_roles. cbn [new_account Account.is_super_admin bool_truthy
    default Account.id read_roles].
  pose proof (next_id_positive (Account.id <$> account db)) as Hpos.
  fold new_id in Hpos. destruct (Z.eqb_spec new_id 0); [lia|].
  unfold select_role_names_of. cbn [role role_permission].
  rewrite <- names_of_role. apply list_bind_ext; [|reflexivity].
  intros r. rewrite bind_app.
  assert (Hold : (role_permission db ≫= λ rp,
                    if bool_decide (Role.id r = Some (RolePermission.role_id rp))
                       && (RolePermission.account_id rp =? new_id)
                    then [Role.name r] else []) = []).
  { clear -Hfk. assert (H := no_assignment_for_next_id db).
    fold new_id in H. specialize (λ rp, H rp Hfk).
    induction (role_permission db) as [|rp l IH]; [reflexivity|]. cbn.
    rewrite IH by (intros rp' Hin'; apply H; by apply list_elem_of_further).
    destruct (Z.eqb_spec (RolePermission.account_id rp) new_id) as [Heq|];
      [exfalso; exact (H rp (list_elem_of_here _ _) Heq)|].
    rewrite andb_false_r. reflexivity. }
  rewrite Hold. cbn. rewrite Z.eqb_refl, andb_true_r.
  destruct (bool_decide (Role.id r = Some 2)); reflexivity.
Qed.

(** *** A returning directory user *)

(** A returning directory user who already holds role 2. The name and title
    are replaced by the ones given, the id, the password and the flags of
    the account stay, no row is added to any table, and doing it again with
    the same values changes nothing. *)
Theorem returning_user_update (db : Database) (username : string)
    (full_name title : option string) (acct : Account.t) (i : Z)
    (granted : RolePermission.t) :
  let row :=
    {| Account.id := Account.id acct;
       Account.username := Account.username acct;
       Account.full_name := full_name;
       Account.password := Account.password acct;
       Account.title := title;
       Account.is_domain_user := Account.is_domain_user acct;
       Account.is_super_admin := Account.is_super_admin acct |} in
  select_account same_username db username = [acct] →
  Account.id acct = Some i →
  accepts_account row = true →
  select_role_permission db i 2 = [granted] →
  account_ids_distinct db →
  let db' := update_account db row in
  create_or_update_user db username full_name title = (inr row, db') ∧
  length (account db') = length (account db) ∧
  role_permission db' = role_permission db ∧
  create_or_update_user db' username full_name title = (inr row, db').
Proof.
  intros row Hsel Hid Hacc Hgr [Hnd _] db'.
  assert (Hfirst : create_or_update_user db username full_name title
                   = (inr row, db')).
  { unfold Accounts.create_or_update_user. rewrite Hsel.
    cbn [scalar_one_or_none ret]. fold row. rewrite Hacc.
    cbn [row Account.id]. rewrite Hid. fold row. fold db'.
    unfold ensure_user_has_role.
    change (select_role_permission db' i 2) with (select_role_permission db i 2).
    rewrite Hgr. reflexivity. }
  split; [exact Hfirst|]. split; [apply length_fmap|]. split; [reflexivity|].
  (* the second call *)
  assert (Hsel' : select_account same_username db' username = [row]).
  { unfold select_account in *. cbn [db' update_account account].
    apply (select_after_update _ _ acct row Hnd Hsel); [reflexivity|].
    assert (Hin : In acct (List.filter
                             (λ a, same_username (Account.username a) username)
                             (account db)))
      by (rewrite Hsel; by left).
    apply filter_In in Hin as [_ Hp]. exact Hp. }
  assert (Hsame : update_account db' row = db')
    by apply update_account_twice.
  unfold Accounts.create_or_update_user. rewrite Hsel'.
  cbn [scalar_one_or_none ret].
  change {| Account.id := Account.id row;
            Account.username := Account.username row;
            Account.full_name := full_name;
            Account.password := Account.password row;
            Account.title := title;
            Account.is_domain_user := Account.is_domain_user row;
            Account.is_super_admin := Account.is_super_admin row |} with row.
  rewrite Hacc, Hsame. cbn [row Account.id]. rewrite Hid. fold row.
  unfold ensure_user_has_role.
  change (select_role_permission db' i 2) with (select_role_permission db i 2).
  rewrite Hgr. reflexivity.
Qed.

(** *** Looking accounts up *)

(** [validate_user_name_and_password] hands out an account only when it is a
    row of the table whose username matches the one given and whose stored
    hash the password check accepts. *)
Theorem validate_sound (db : Database) (username password : string)
    (acct : Account.t) :
  validate_user_name_and_password same_username checkpw db username password
    = inr (Some acct) →
  acct ∈ account db ∧
  same_username (Account.username acct) username = true ∧
  ∃ hashed : string,
    Account.password acct = Some hashed ∧ checkpw password hashed = true.
Proof.
  unfold validate_user_name_and_password, scalar_one_or_none.
  destruct (select_account same_username db username) as [|a [|a' rows]] eqn:Hsel;
    try discriminate. cbn [ret].
  destruct (Account.password a) as [hashed|] eqn:Hpw; [|discriminate].
  destruct (checkpw password hashed) eqn:Hck; [|discriminate].
  intros [= <-].
  assert (Hin : In a (select_account same_username db username))
    by (rewrite Hsel; by left).
  apply filter_In in Hin as [Hin Hp].
  split; [by apply list_elem_of_In|]. split; [exact Hp|]. eauto.
Qed.

(** *** The local admin *)

(** The local login of ["admin"] when the table has exactly one matching
    account: a wrong password is 401; a stored password that is NULL is 500,
    not 401; a right password gives the account's id, name and title, the
    address built from its username, and its roles, which are all role
    names for a super admin. The database is not written. *)
Theorem local_admin_login (db : Database) (password : string)
    (acct : Account.t) :
  let form_data := {| LoginRequest.username := "admin";
                      LoginRequest.password := password |} in
  password ≠ "" →
  select_account same_username db "admin" = [acct] →
  login_for_access_token db form_data =
  (match Account.password acct with
   | None => inl InternalServerException
   | Some hashed =>
       if checkpw password hashed
       then inr {| LoginResponse.userId := Account.id acct;
                   LoginResponse.username := Some (Account.username acct);
                   LoginResponse.fullName := Account.full_name acct;
                   LoginResponse.title := Account.title acct;
                   LoginResponse.email :=
                     Some (Account.username acct +:+ "@andalusiagroup.net");
                   LoginResponse.roles :=
                     Some (if bool_truthy (Account.is_super_admin acct)
                           then Role.name <$> role db
                           else read_roles db (Account.id acct)) |}
       else inl InvalidCredentialsException
   end, db).
Proof.
  intros form_data Hp Hsel. unfold Accounts.login_for_access_token.
  cbn [form_data LoginRequest.username LoginRequest.password].
  change (String.eqb "admin" "") with false.
  change (String.eqb "admin" "admin") with true.
  rewrite (proj2 (String.eqb_neq _ _) Hp). cbn [orb].
  unfold authenticate_admin, validate_user_name_and_password.
  rewrite Hsel. cbn [scalar_one_or_none ret].
  destruct (Account.password acct) as [hashed|]; [|reflexivity].
  destruct (checkpw password hashed); [|reflexivity].
  unfold get_user_roles.
  destruct (bool_truthy (Account.is_super_admin acct)); reflexivity.
Qed.

End WithServices.

(** The local ["admin"] login never asks the directory and never writes. *)
Theorem admin_login_is_local (same_username : string → string → bool)
    (accepts_account : Account.t → bool) (checkpw : string → string → bool)
    (ldap ldap' : string → string → option DomainUser.t)
    (db : Database) (password : string) :
  let form_data := {| LoginRequest.username := "admin";
                      LoginRequest.password := password |} in
  login_for_access_token same_username accepts_account checkpw ldap db form_data
  = login_for_access_token same_username accepts_account checkpw ldap' db
      form_data ∧
  (login_for_access_token same_username accepts_account checkpw ldap db
     form_data).2 = db.
Proof.
  unfold login_for_access_token. cbn [LoginRequest.username LoginRequest.password].
  change (String.eqb "admin" "") with false.
  change (String.eqb "admin" "admin") with true. cbn [orb].
  destruct (String.eqb password ""); [split; reflexivity|].
  destruct (authenticate_admin _ _ _ _ _) as [f|user]; [|split; reflexivity].
  destruct (is_InvalidCredentialsException f); split; reflexivity.
Qed.

(** *** Instances

    A directory that knows one user, a collation that compares exactly, a
    table that takes every row, and a password check by equality. *)

Lemma login_401_iff_rejected_witness :
  let ldap := λ (u p : string),
    if String.eqb u "jdoe" && String.eqb p "secret"
    then Some {| DomainUser.id := 0; DomainUser.username := "jdoe";
                 DomainUser.fullName := Some "J. Doe";
                 DomainUser.title := Some "Nurse" |}
    else None in
  let db := {| role := []; account := []; role_permission := [];
               log_role_permission := [] |} in
  let res := login_for_access_token String.eqb (λ _, true) String.eqb ldap db
               {| LoginRequest.username := "jdoe";
                  LoginRequest.password := "wrong" |} in
  res.1 = inl InvalidCredentialsException ∧ res.2 = db.
Proof.
  intros ldap db res.
  destruct (login_401_iff_rejected String.eqb (λ _, true) String.eqb ldap db
              {| LoginRequest.username := "jdoe";
                 LoginRequest.password := "wrong" |}) as (_ & Hiff & Hdb).
  assert (H401 : res.1 = inl InvalidCredentialsException).
  { apply Hiff. right. right. right. split; [discriminate|reflexivity]. }
  split; [exact H401|exact (Hdb H401)].
Defined.

Lemma create_or_update_user_keeps_keys_witness :
  let db := {| role := [ {| Role.id := Some 2; Role.name := "User";
                            Role.description := None |} ];
               account := []; role_permission := [];
               log_role_permission := [] |} in
  let db' := (create_or_update_user String.eqb (λ _, true) db "jdoe"
                (Some "J. Doe") (Some "Nurse")).2 in
  account_ids_distinct db' ∧ fk_consistent db' ∧ role db' = role db.
Proof.
  intros db db'.
  assert (Hd : account_ids_distinct db).
  { split; cbn; [apply NoDup_nil_2|apply not_elem_of_nil]. }
  assert (Hf : fk_consistent db).
  { intros rp Hin. by apply not_elem_of_nil in Hin. }
  destruct (create_or_update_user_keeps_keys String.eqb (λ _, true) db "jdoe"
              (Some "J. Doe") (Some "Nurse") Hd Hf) as (Hr & _ & _ & Hd' & Hf').
  split; [exact Hd'|]. split; [exact Hf'|exact Hr].
Defined.

Lemma first_directory_login_witness :
  let ldap := λ (u p : string),
    if String.eqb u "jdoe" && String.eqb p "secret"
    then Some {| DomainUser.id := 0; DomainUser.username := "jdoe";
                 DomainUser.fullName := Some "J. Doe";
                 DomainUser.title := Some "Nurse" |}
    else None in
  let db := {| role := [ {| Role.id := Some 1; Role.name := "Admin";
                            Role.description := None |};
                         {| Role.id := Some 2; Role.name := "User";
                            Role.description := None |} ];
               account := []; role_permission := [];
               log_role_permission := [] |} in
  (login_for_access_token String.eqb (λ _, true) String.eqb ldap db
     {| LoginRequest.username := "jdoe"; LoginRequest.password := "secret" |}).1
  = inr {| LoginResponse.userId := Some 1;
           LoginResponse.username := Some "jdoe";
           LoginResponse.fullName := Some "J. Doe";
           LoginResponse.title := Some "Nurse";
           LoginResponse.email := Some "jdoe@andalusiagroup.net";
           LoginResponse.roles := Some ["User"] |}.
Proof.
  intros ldap db.
  assert (Hr : ∃ r : Role.t, r ∈ role db ∧ Role.id r = Some 2).
  { eexists. split; [apply list_elem_of_further, list_elem_of_here|reflexivity]. }
  assert (Hf : fk_consistent db).
  { intros rp Hin. by apply not_elem_of_nil in Hin. }
  rewrite (first_directory_login String.eqb (λ _, true) String.eqb ldap db
             {| LoginRequest.username := "jdoe";
                LoginRequest.password := "secret" |}
             {| DomainUser.id := 0; DomainUser.username := "jdoe";
                DomainUser.fullName := Some "J. Doe";
                DomainUser.title := Some "Nurse" |}
             ltac:(discriminate) ltac:(discriminate) ltac:(discriminate)
             eq_refl eq_refl eq_refl Hr Hf).
  reflexivity.
Defined.

Lemma returning_user_update_witness :
  let acct := {| Account.id := Some 1; Account.username := "jdoe";
                 Account.full_name := Some "J. Doe"; Account.password := None;
                 Account.title := Some "Nurse";
                 Account.is_domain_user := Some true;
                 Account.is_super_admin := None |} in
  let row := {| Account.id := Some 1; Account.username := "jdoe";
                Account.full_name := Some "Jane Doe"; Account.password := None;
                Account.title := Some "Head Nurse";
                Account.is_domain_user := Some true;
                Account.is_super_admin := None |} in
  let grant := {| RolePermission.id := Some 1; RolePermission.role_id := 2;
                  RolePermission.account_id := 1 |} in
  let db := {| role := [ {| Role.id := Some 2; Role.name := "User";
                            Role.description := None |} ];
               account := [acct]; role_permission := [grant];
               log_role_permission := [] |} in
  let db' := {| role := role db; account := [row];
                role_permission := [grant]; log_role_permission := [] |} in
  create_or_update_user String.eqb (λ _, true) db "jdoe"
    (Some "Jane Doe") (Some "Head Nurse") = (inr row, db') ∧
  create_or_update_user String.eqb (λ _, true) db' "jdoe"
    (Some "Jane Doe") (Some "Head Nurse") = (inr row, db').
Proof.
  intros acct row grant db db'.
  assert (Hd : account_ids_distinct db).
  { split; cbn; [apply NoDup_singleton|].
    intros Hin. apply list_elem_of_singleton in Hin. discriminate. }
  destruct (returning_user_update String.eqb (λ _, true) db "jdoe"
              (Some "Jane Doe") (Some "Head Nurse") acct 1 grant
              eq_refl eq_refl eq_refl eq_refl Hd) as (H1 & _ & _ & H2).
  split; [exact H1|exact H2].
Defined.

Lemma local_admin_login_witness :
  let acct := {| Account.id := Some 1; Account.username := "admin";
                 Account.full_name := Some "Administrator";
                 Account.password := None;
                 Account.title := None; Account.is_domain_user := None;
                 Account.is_super_admin := Some true |} in
  let db := {| role := []; account := [acct]; role_permission := [];
               log_role_permission := [] |} in
  login_for_access_token String.eqb (λ _, true) String.eqb (λ _ _, None) db
    {| LoginRequest.username := "admin"; LoginRequest.password := "secret" |}
  = (inl InternalServerException, db).
Proof.
  intros acct db.
  exact (local_admin_login String.eqb (λ _, true) String.eqb (λ _ _, None) db
           "secret" acct ltac:(discriminate) eq_refl).
Defined.

Lemma validate_sound_witness :
  let acct := {| Account.id := Some 1; Account.username := "admin";
                 Account.full_name := None; Account.password := Some "secret";
                 Account.title := None; Account.is_domain_user := None;
                 Account.is_super_admin := Some true |} in
  let db := {| role := []; account := [acct]; role_permission := [];
               log_role_permission := [] |} in
  acct ∈ account db ∧ String.eqb (Account.username acct) "admin" = true.
Proof.
  intros acct db.
  destruct (validate_sound String.eqb String.eqb db "admin" "secret" acct eq_refl)
    as (Hin & Hu & _).
  split; [exact Hin|exact Hu].
Defined.

Lemma read_user_by_id_finds_witness :
  let acct := {| Account.id := Some 1; Account.username := "jdoe";
                 Account.full_name := None; Account.password := None;
                 Account.title := None; Account.is_domain_user := Some true;
                 Account.is_super_admin := None |} in
  let db := {| role := []; account := [acct]; role_permission := [];
               log_role_permission := [] |} in
  ∃ found : option Account.t,
    read_user_by_id db 7 = inr found ∧ (found = Some acct ↔ False).
Proof.
  intros acct db.
  assert (Hd : account_ids_distinct db).
  { split; cbn; [apply NoDup_singleton|].
    intros Hin. apply list_elem_of_singleton in Hin. discriminate. }
  destruct (read_user_by_id_finds db 7 Hd) as (found & Hr & Hspec).
  exists found. split; [exact Hr|]. rewrite (Hspec acct). split; [|tauto].
  intros [_ Hid]. discriminate Hid.
Defined.

(** The same pair stored twice. *)
Lemma grant_failures_witness :
  let row := {| RolePermission.id := Some 1; RolePermission.role_id := 2;
                RolePermission.account_id := 1 |} in
  let db := {| role := []; account := []; role_permission := [row; row];
               log_role_permission := [] |} in
  ensure_user_has_role db 1 2 "jdoe" = (inl MultipleResultsFound, db).
Proof.
  intros row db.
  apply (proj1 (grant_failures db 1 2 "jdoe")). cbn. lia.
Defined.

End AccountsMore.

(** ** The roles of the login response *)

Module LoginSpec.
Import Ledger Accounts.

Lemma filter_elem_of {A : Type} (f : A → bool) (l : list A) (x : A) :
  In x (List.filter f l) → x ∈ l.
Proof. intros H. apply list_elem_of_In. apply (proj1 (filter_In f x l) H). Qed.

Lemma scalar_one_elem_of {A : Type} (rows : list A) (row : A) :
  scalar_one_or_none rows = inr (Some row) → In row rows.
Proof.
  destruct rows as [|r [|r' rows]]; try discriminate.
  intros [= ->]. left. reflexivity.
Qed.

Lemma updated_row_stored (l : list Account.t) (acct row : Account.t) :
  acct ∈ l → Account.id row = Account.id acct →
  row ∈ (λ a, if bool_decide (Account.id a = Account.id row) then row else a) <$> l.
Proof.
  intros Hin Hid. apply list_elem_of_fmap. exists acct. split; [|exact Hin].
  rewrite bool_decide_eq_true_2 by congruence. reflexivity.
Qed.

Section WithServices.

Variable same_username : string → string → bool.
Variable accepts_account : Account.t → bool.
Variable checkpw : string → string → bool.
Variable ldap_authenticate : string → string → option DomainUser.t.

Lemma authenticate_admin_stored (db : Database) (username password : string)
    (user : Account.t) :
  authenticate_admin same_username checkpw db username password = inr user →
  user ∈ account db.
Proof.
  unfold authenticate_admin, validate_user_name_and_password.
  destruct (scalar_one_or_none (select_account same_username db username))
    as [e|[acct|]] eqn:Hsel; try discriminate.
  destruct (Account.password acct) as [hashed|]; [|discriminate].
  destruct (checkpw password hashed); [|discriminate].
  intros [= <-]. apply scalar_one_elem_of in Hsel.
  exact (filter_elem_of _ _ _ Hsel).
Qed.

Lemma create_or_update_user_stored (db db' : Database) (username : string)
    (full_name title : option string) (user : Account.t) :
  account_ids_positive db →
  create_or_update_user same_username accepts_account db username full_name title
    = (inr user, db') →
  account_ids_positive db' ∧
  user ∈ account db' ∧ ∃ a : Z, Account.id user = Some a ∧ 0 < a.
Proof.
  intros Hpos. unfold create_or_update_user.
  destruct (scalar_one_or_none (select_account same_username db username))
    as [e|found] eqn:Hsel; [discriminate|].
  set (pair := match found with Some _ => _ | None => _ end).
  assert (Hw : account_ids_positive pair.2 ∧ pair.1 ∈ account pair.2 ∧
               ∃ a : Z, Account.id pair.1 = Some a ∧ 0 < a).
  { subst pair. destruct found as [acct|]; cbn [fst snd].
    - apply scalar_one_elem_of in Hsel. apply filter_elem_of in Hsel.
      split; [|split].
      + intros a Ha. unfold update_account in Ha. cbn [account] in Ha.
        apply list_elem_of_fmap in Ha as (a0 & -> & Ha0).
        destruct (bool_decide _); [exact (Hpos acct Hsel)|exact (Hpos a0 Ha0)].
      + unfold update_account. cbn [account].
        apply (updated_row_stored _ acct); [exact Hsel|reflexivity].
      + cbn [Account.id]. exact (Hpos acct Hsel).
    - split; [|split].
      + intros a Ha. unfold insert_account in Ha. cbn [account] in Ha.
        apply elem_of_app in Ha as [Ha|Ha]; [exact (Hpos a Ha)|].
        apply list_elem_of_singleton in Ha as ->.
        eexists. split; [reflexivity|]. apply AccountsMore.next_id_positive.
      + unfold insert_account. cbn [account]. apply elem_of_app. right.
        apply list_elem_of_singleton. reflexivity.
      + eexists. split; [reflexivity|]. apply AccountsMore.next_id_positive. }
  destruct pair as [acct written]. cbn [fst snd] in Hw.
  destruct (accepts_account acct); [|discriminate].
  destruct Hw as (Hpos' & Hin & a & Hid & Ha). rewrite Hid.
  destruct (AccountsMore.ensure_tables written a 2 username) as (_ & Hacc & _).
  destruct (ensure_user_has_role written a 2 username) as [[e|m] db''];
    [discriminate|].
  cbn [snd] in Hacc. intros [= <- <-]. unfold account_ids_positive.
  rewrite Hacc. eauto.
Qed.

(** C7. When the login answers, the account it answers for is a stored row
    of the database it leaves, with the positive id the response carries;
    the roles of the response are the names of all roles when the account's
    [is_super_admin] flag is true, and otherwise the names of the roles
    joined to the account by an assignment row, each as often as there is
    such a row and no other name. The accounts are rows of the table
    [account], whose auto-increment key is positive; the login keeps it
    so. *)
Theorem login_response_roles (db db' : Database) (form_data : LoginRequest.t)
    (response : LoginResponse.t) :
  account_ids_positive db →
  login_for_access_token same_username accepts_account checkpw ldap_authenticate
    db form_data = (inr response, db') →
  account_ids_positive db' ∧
  ∃ (user : Account.t) (a : Z) (names : list string),
    user ∈ account db' ∧ Account.id user = Some a ∧ 0 < a ∧
    LoginResponse.userId response = Some a ∧
    LoginResponse.roles response = Some names ∧
    (Account.is_super_admin user = Some true →
     names = Role.name <$> role db') ∧
    (bool_truthy (Account.is_super_admin user) = false →
     names ≡ₚ select_role_names_of db' a ∧
     ∀ name : string,
       name ∈ names ↔
       ∃ (r : Role.t) (rp : RolePermission.t),
         r ∈ role db' ∧ rp ∈ role_permission db' ∧
         Role.id r = Some (RolePermission.role_id rp) ∧
         RolePermission.account_id rp = a ∧
         name = Role.name r).
Proof.
  intros Hpos. unfold login_for_access_token.
  destruct (String.eqb (LoginRequest.username form_data) ""
            || String.eqb (LoginRequest.password form_data) "").
  { cbn. discriminate. }
  set (auth := if String.eqb (LoginRequest.username form_data) "admin"
               then _ else _).
  assert (Hauth : ∀ user db1, auth = (inr user, db1) →
                    account_ids_positive db1 ∧
                    user ∈ account db1 ∧
                    ∃ a : Z, Account.id user = Some a ∧ 0 < a).
  { subst auth. intros user db1.
    destruct (String.eqb (LoginRequest.username form_data) "admin").
    - intros [= Hadm <-]. apply authenticate_admin_stored in Hadm.
      split; [exact Hpos|]. split; [exact Hadm|exact (Hpos user Hadm)].
    - unfold authenticate_ad_and_update.
      destruct (authenticate_and_get_user _ _ _) as [wa|]; [|discriminate].
      apply create_or_update_user_stored, Hpos. }
  destruct auth as [[f|user] db1].
  { cbn. destruct (is_InvalidCredentialsException f); discriminate. }
  destruct (Hauth user db1 eq_refl) as (Hpos1 & Hin & a & Hid & Ha).
  cbn. intros [= <- <-]. split; [exact Hpos1|].
  exists user, a, (get_user_roles db1 user).
  split; [exact Hin|]. split; [exact Hid|]. split; [exact Ha|].
  cbn. split; [exact Hid|]. split; [reflexivity|].
  destruct (LedgerSpec.get_user_roles_cases db1 user) as [Hsuper Hother].
  split; [exact Hsuper|]. intros Hns.
  rewrite (Hother a Hns Hid) by lia. split; [reflexivity|].
  intros name. apply LedgerSpec.select_role_names_of_spec.
Qed.

End WithServices.

(** A returning directory user who holds the role User. *)
Lemma login_response_roles_witness :
  let ldap := λ (u p : string),
    if String.eqb u "jdoe" && String.eqb p "secret"
    then Some {| DomainUser.id := 0; DomainUser.username := "jdoe";
                 DomainUser.fullName := Some "J. Doe";
                 DomainUser.title := Some "Nurse" |}
    else None in
  let acct := {| Account.id := Some 1; Account.username := "jdoe";
                 Account.full_name := Some "J. Doe"; Account.password := None;
                 Account.title := Some "Nurse";
                 Account.is_domain_user := Some true;
                 Account.is_super_admin := None |} in
  let db := {| role := [ {| Role.id := Some 1; Role.name := "Admin";
                            Role.description := None |};
                         {| Role.id := Some 2; Role.name := "User";
                            Role.description := None |} ];
               account := [acct];
               role_permission :=
                 [ {| RolePermission.id := Some 1; RolePermission.role_id := 2;
                      RolePermission.account_id := 1 |} ];
               log_role_permission := [] |} in
  let response := {| LoginResponse.userId := Some 1;
                     LoginResponse.username := Some "jdoe";
                     LoginResponse.fullName := Some "J. Doe";
                     LoginResponse.title := Some "Nurse";
                     LoginResponse.email := Some "jdoe@andalusiagroup.net";
                     LoginResponse.roles := Some ["User"] |} in
  login_for_access_token String.eqb (λ _, true) String.eqb ldap db
    {| LoginRequest.username := "jdoe"; LoginRequest.password := "secret" |}
  = (inr response, db) ∧
  ∃ (user : Account.t) (a : Z),
    user ∈ account db ∧ Account.id user = Some a ∧
    LoginResponse.userId response = Some a ∧
    (bool_truthy (Account.is_super_admin user) = false →
     ["User"] ≡ₚ select_role_names_of db a).
Proof.
  intros ldap acct db response.
  assert (Hpos : account_ids_positive db).
  { intros a Ha. apply list_elem_of_singleton in Ha as ->.
    exists 1. split; [reflexivity|lia]. }
  assert (Hl : login_for_access_token String.eqb (λ _, true) String.eqb ldap db
                 {| LoginRequest.username := "jdoe";
                    LoginRequest.password := "secret" |}
               = (inr response, db)) by reflexivity.
  split; [exact Hl|].
  destruct (login_response_roles String.eqb (λ _, true) String.eqb ldap db db
              _ response Hpos Hl)
    as (_ & user & a & names & Hin & Hid & _ & Huid & Hroles & _ & Hother).
  injection Hroles as <-.
  exists user, a. split; [exact Hin|]. split; [exact Hid|].
  split; [exact Huid|]. intros Hns. exact (proj1 (Hother Hns)).
Defined.

End LoginSpec.

(** ** The seed *)

Module SetupMore.
Import Ledger Accounts Setup.

Section WithServices.

Variable same_username : string → string → bool.
Variable accepts_account : Account.t → bool.
Variable hash_password : string → string.
Variable ADMIN_PASSWORD : option string.

#[local] Abbreviation seed_default_values :=
  (seed_default_values same_username accepts_account hash_password
     ADMIN_PASSWORD).

Lemma seed_roles_twice (db : Database) : seed_roles (seed_roles db) = seed_roles db.
Proof.
  unfold seed_roles. destruct (role db) as [|r l] eqn:Hr; cbn [role app].
  - reflexivity.
  - rewrite Hr. reflexivity.
Qed.

Lemma seed_roles_of_seeded (db db' : Database) :
  role db ≠ [] → role db' = role db → seed_roles db' = db'.
Proof.
  intros Hne Heq. unfold seed_roles. rewrite Heq.
  destruct (role db); [congruence|reflexivity].
Qed.

(** Seeding is idempotent, whether or not the admin account could be
    written: a second run finds the roles and, when it was created, the
    admin account, and changes nothing. *)
Theorem seed_is_idempotent (db : Database) :
  same_username "admin" "admin" = true →
  seed_default_values (seed_default_values db) = seed_default_values db.
Proof.
  intros Hrefl. unfold Setup.seed_default_values.
  set (db1 := seed_roles db).
  assert (Hne : role db1 ≠ []).
  { unfold db1, seed_roles. destruct (role db) eqn:Hr; cbn [role];
      [discriminate|]. rewrite Hr. discriminate. }
  assert (H1 : seed_roles db1 = db1) by apply seed_roles_twice.
  destruct (seed_admin_user same_username accepts_account hash_password
              ADMIN_PASSWORD db1) as [f|db2] eqn:Hadm.
  { rewrite H1, Hadm. reflexivity. }
  assert (seed_roles db2 = db2 ∧
          seed_admin_user same_username accepts_account hash_password
            ADMIN_PASSWORD db2 = inr db2) as [-> ->]; [|reflexivity].
  unfold seed_admin_user in Hadm.
  destruct (head (select_account same_username db1 "admin")) as [a|] eqn:Hsel.
  { injection Hadm as <-. split; [exact H1|].
    unfold seed_admin_user. rewrite Hsel. reflexivity. }
  destruct ADMIN_PASSWORD as [password|]; [|discriminate].
  destruct (accepts_account _) eqn:Hacc; [|discriminate].
  injection Hadm as <-.
  split; [apply (seed_roles_of_seeded db1); [exact Hne|reflexivity]|].
  unfold seed_admin_user, select_account, insert_account. cbn [account].
  rewrite List.filter_app. cbn [List.filter Account.username].
  rewrite Hrefl.
  destruct (List.filter _ (account db1)); reflexivity.
Qed.

(** Seeding a fresh database (all tables empty) with an admin password set:
    the roles are Admin with id 1 and User with id 2, so the role 2 that
    [create_or_update_user] grants is User; the only account is the super
    admin, who resolves to both role names; and the keys hold. *)
Theorem seed_of_fresh_database (password : string) :
  let admin :=
    {| Account.id := Some 1; Account.username := "admin";
       Account.full_name := Some "Administrator";
       Account.password := Some (hash_password password);
       Account.title := Some "Built-in Administrator";
       Account.is_domain_user := None;
       Account.is_super_admin := Some true |} in
  let db := seed_default_values
              {| role := []; account := []; role_permission := [];
                 log_role_permission := [] |} in
  ADMIN_PASSWORD = Some password →
  accepts_account admin = true →
  role db = [ {| Role.id := Some 1; Role.name := "Admin";
                 Role.description := Some "Has full access to the system" |};
              {| Role.id := Some 2; Role.name := "User";
                 Role.description := Some "Can access basic features" |} ] ∧
  account db = [admin] ∧
  role_permission db = [] ∧
  get_user_roles db admin = ["Admin"; "User"] ∧
  Role.name <$> List.filter (λ r, bool_decide (Role.id r = Some 2)) (role db)
    = ["User"] ∧
  account_ids_distinct db ∧ fk_consistent db.
Proof.
  intros admin db Hpw Hacc.
  assert (Hdb : db = {| role := [ {| Role.id := Some 1; Role.name := "Admin";
                                     Role.description :=
                                       Some "Has full access to the system" |};
                                  {| Role.id := Some 2; Role.name := "User";
                                     Role.description :=
                                       Some "Can access basic features" |} ];
                        account := [admin]; role_permission := [];
                        log_role_permission := [] |}).
  { unfold db, Setup.seed_default_values, seed_admin_user, seed_roles.
    cbn [role account select_account List.filter head]. rewrite Hpw.
    change (Some (next_id (Account.id <$> []))) with (Some 1).
    fold admin. rewrite Hacc. reflexivity. }
  rewrite Hdb. cbn [role account role_permission].
  split; [reflexivity|]. split; [reflexivity|]. split; [reflexivity|].
  split; [reflexivity|]. split; [reflexivity|]. split.
  - split; cbn; [apply NoDup_singleton|].
    intros Hin. apply list_elem_of_singleton in Hin. discriminate.
  - intros rp Hin. cbn in Hin. by apply not_elem_of_nil in Hin.
Qed.

End WithServices.

Lemma seed_is_idempotent_witness :
  let seed := seed_default_values String.eqb (λ _, true)
                (λ p, "bcrypt:" +:+ p) (Some "changeme") in
  let db := {| role := []; account := []; role_permission := [];
               log_role_permission := [] |} in
  seed (seed db) = seed db.
Proof.
  intros seed db.
  exact (seed_is_idempotent String.eqb (λ _, true) (λ p, "bcrypt:" +:+ p)
           (Some "changeme") db eq_refl).
Defined.

Lemma seed_of_fresh_database_witness :
  let db := seed_default_values String.eqb (λ _, true)
              (λ p, "bcrypt:" +:+ p) (Some "changeme")
              {| role := []; account := []; role_permission := [];
                 log_role_permission := [] |} in
  Role.name <$> List.filter (λ r, bool_decide (Role.id r = Some 2)) (role db)
    = ["User"] ∧
  fk_consistent db.
Proof.
  intros db.
  destruct (seed_of_fresh_database String.eqb (λ _, true)
              (λ p, "bcrypt:" +:+ p) (Some "changeme") "changeme"
              eq_refl eq_refl) as (_ & _ & _ & _ & Hu & _ & Hf).
  split; [exact Hu|exact Hf].
Defined.

End SetupMore.
